(** * Credit-Worthiness intake wizard: validation, normalisation and
      submission pipeline

    A shallow embedding of the front end's wizard logic
    ([utils/validation.js], [utils/formData.js], the step components'
    change handlers, [components/FileUpload.jsx] and
    [pages/CreditForm.jsx]) together with the properties the design
    document states about it.

    JavaScript data is modelled as follows.
    - A value is [undefined], [null], a boolean, a Number, a string or a
      [File] object; these are the values the form state, the inputs and
      the JSON bodies of the services put into the record.
    - A Number is an IEEE 754 binary64 value, [spec_float] at precision 53
      and maximal exponent 1024, rounded to nearest even.
    - A string is a Rocq [string] read as its sequence of code units; the
      model covers code units below 256, among which the white space and
      line terminator units are 9 to 13, 32 and 160.
    - An object used as a record or as a dictionary is a [gmap string _];
      reading an absent key gives [undefined]. *)

From Stdlib Require Import ZArith Bool List Ascii String Lia.
From Stdlib Require Import Floats.SpecFloat.
From stdpp Require Import gmap strings list fin_maps.

Local Open Scope string_scope.
Local Open Scope Z_scope.

(* ===================================================================== *)
(** * The JavaScript fragment the program uses *)
(* ===================================================================== *)

Module JS.

Definition number := spec_float.

Definition prec : Z := 53.
Definition emax : Z := 1024.

Definition NaN : number := S754_nan.
Definition zero : number := S754_zero false.

Inductive value :=
  | VUndefined
  | VNull
  | VBool (b : bool)
  | VNum (x : number)
  | VStr (s : string)
  | VFile (name : string).

(** ** Strings *)

(** WhiteSpace and LineTerminator code units below 256: TAB, LF, VT, FF, CR,
    SP and NBSP. *)
Definition isWhiteSpace (c : ascii) : bool :=
  let n := Z.of_nat (nat_of_ascii c) in
  ((9 <=? n) && (n <=? 13)) || (n =? 32) || (n =? 160).

Fixpoint trimStart (s : string) : string :=
  match s with
  | EmptyString => EmptyString
  | String c r => if isWhiteSpace c then trimStart r else s
  end.

Fixpoint trimEnd (s : string) : string :=
  match s with
  | EmptyString => EmptyString
  | String c r =>
      match trimEnd r with
      | EmptyString => if isWhiteSpace c then EmptyString else String c EmptyString
      | r' => String c r'
      end
  end.

(** [String.prototype.trim]. *)
Definition trim (s : string) : string := trimEnd (trimStart s).

Fixpoint allWhiteSpace (s : string) : bool :=
  match s with
  | EmptyString => true
  | String c r => isWhiteSpace c && allWhiteSpace r
  end.

Definition isEmptyString (s : string) : bool :=
  match s with EmptyString => true | _ => false end.

(** ** Numbers *)

Definition isNaN (x : number) : bool :=
  match x with S754_nan => true | _ => false end.

Definition isZero (x : number) : bool :=
  match x with S754_zero _ => true | _ => false end.

(** The Number nearest to [(-1)^neg * m * 10^e10] for a natural [m]. *)
Definition decimalToNumber (neg : bool) (m : Z) (e10 : Z) : number :=
  match m with
  | Zpos p =>
      if 0 <=? e10
      then binary_normalize prec emax (cond_Zopp neg (m * 10 ^ e10)) 0 neg
      else SFdiv prec emax (S754_finite neg p 0)
                           (S754_finite false (Z.to_pos (10 ^ (- e10))) 0)
  | _ => S754_zero neg
  end.

Definition digitValue (radix : Z) (c : ascii) : option Z :=
  let n := Z.of_nat (nat_of_ascii c) in
  let d := if (48 <=? n) && (n <=? 57) then n - 48
           else if (97 <=? n) && (n <=? 102) then n - 87
           else if (65 <=? n) && (n <=? 70) then n - 55
           else 16 in
  if d <? radix then Some d else None.

(** The longest prefix of digits of the radix: its value, its length, and
    the rest of the string. *)
Fixpoint takeDigits (radix : Z) (acc : Z) (len : Z) (s : string) : Z * Z * string :=
  match s with
  | EmptyString => (acc, len, s)
  | String c r =>
      match digitValue radix c with
      | Some d => takeDigits radix (acc * radix + d) (len + 1) r
      | None => (acc, len, s)
      end
  end.

Definition stripSign (s : string) : bool * string :=
  match s with
  | String "-" r => (true, r)
  | String "+" r => (false, r)
  | _ => (false, s)
  end.

(** [parseInt(string)] with no radix argument, on the string form of its
    argument: leading white space is skipped, a sign and a [0x] prefix are
    read, then the longest prefix of digits; no digit gives [NaN]. *)
Definition parseIntString (input : string) : number :=
  let '(neg, s1) := stripSign (trimStart input) in
  let '(radix, s2) :=
    match s1 with
    | String "0" (String "x" r) => (16, r)
    | String "0" (String "X" r) => (16, r)
    | _ => (10, s1)
    end in
  let '(mathInt, len, _) := takeDigits radix 0 0 s2 in
  if len =? 0 then NaN else decimalToNumber neg mathInt 0.

(** The optional [ExponentPart] of a [StrDecimalLiteral]: an [e] or [E], an
    optional sign and at least one digit; anything else is not part of the
    literal. *)
Definition exponentPart (s : string) : Z :=
  match s with
  | String c r =>
      if (Ascii.eqb c "e" || Ascii.eqb c "E")%bool
      then let '(neg, r1) := stripSign r in
           let '(e, len, _) := takeDigits 10 0 0 r1 in
           if len =? 0 then 0 else cond_Zopp neg e
      else 0
  | EmptyString => 0
  end.

(** [parseFloat(string)] on the string form of its argument: the longest
    prefix that is a [StrDecimalLiteral], or [NaN] when there is none. *)
Definition parseFloatString (input : string) : number :=
  let '(neg, s1) := stripSign (trimStart input) in
  if String.prefix "Infinity" s1 then S754_infinity neg
  else
    let '(ip, ilen, s2) := takeDigits 10 0 0 s1 in
    match s2 with
    | String "." r =>
        let '(m, flen, s3) := takeDigits 10 ip 0 r in
        if (ilen =? 0) && (flen =? 0) then NaN
        else if (flen =? 0) && negb (ilen =? 0) then decimalToNumber neg ip (exponentPart r)
        else decimalToNumber neg m (exponentPart s3 - flen)
    | _ =>
        if ilen =? 0 then NaN else decimalToNumber neg ip (exponentPart s2)
    end.

(** ** Number::toString, radix 10 *)

Definition digitChar (d : Z) : ascii :=
  match d with
  | 0 => "0" | 1 => "1" | 2 => "2" | 3 => "3" | 4 => "4"
  | 5 => "5" | 6 => "6" | 7 => "7" | 8 => "8" | _ => "9"
  end%char.

Fixpoint digitsToString (ds : list Z) : string :=
  match ds with
  | [] => EmptyString
  | d :: r => String (digitChar d) (digitsToString r)
  end.

(** Decimal digits of a natural number, most significant first. *)
Fixpoint decimalDigitsAux (fuel : nat) (n : Z) (acc : list Z) : list Z :=
  match fuel with
  | O => n mod 10 :: acc
  | S f => if n <? 10 then n :: acc else decimalDigitsAux f (n / 10) (n mod 10 :: acc)
  end.

Definition decimalDigits (n : Z) : list Z :=
  decimalDigitsAux (Z.to_nat (Z.log2 n)) n [].

Definition zeros (n : Z) : list Z := repeat 0 (Z.to_nat n).

(** The least [j >= 1] with [num * 10^j >= den], for [0 < num < den]. *)
Fixpoint leadingShift (fuel : nat) (num den : Z) (j : Z) : Z :=
  match fuel with
  | O => j
  | S f => if den <=? num * 10 then j else leadingShift f (num * 10) den (j + 1)
  end.

(** The integer [n] with [10^(n-1) <= num/den < 10^n], for positive [num]
    and [den]. *)
Definition decimalExponent (num den : Z) : Z :=
  if den <=? num
  then Z.of_nat (length (decimalDigits (num / den)))
  else 1 - leadingShift (Z.to_nat (Z.log2 den)) num den 1.

Definition sameNumber (x y : number) : bool :=
  match x, y with
  | S754_finite s1 m1 e1, S754_finite s2 m2 e2 =>
      Bool.eqb s1 s2 && Pos.eqb m1 m2 && Z.eqb e1 e2
  | S754_zero s1, S754_zero s2 => Bool.eqb s1 s2
  | S754_infinity s1, S754_infinity s2 => Bool.eqb s1 s2
  | S754_nan, S754_nan => true
  | _, _ => false
  end.

(** The shortest decimal [s * 10^sc] that reads back as [x = num/den]:
    with [k] digits the candidates are the two neighbours of [x] on the
    grid of step [10^(n0-k)]; when both read back as [x] the nearer one is
    taken, the even one on a tie. *)
Fixpoint shortestDecimal (fuel : nat) (x : number) (num den n0 k : Z) : Z * Z :=
  let sc := n0 - k in
  let num' := if sc <? 0 then num * 10 ^ (- sc) else num in
  let den' := if sc <? 0 then den else den * 10 ^ sc in
  let lo := num' / den' in
  let hi := lo + 1 in
  let okLo := sameNumber (decimalToNumber false lo sc) x in
  let okHi := sameNumber (decimalToNumber false hi sc) x in
  let nearer :=
    match 2 * num' ?= (2 * lo + 1) * den' with
    | Lt => lo
    | Gt => hi
    | Eq => if Z.even lo then lo else hi
    end in
  match fuel with
  | O => (lo, sc)
  | S f =>
      if okLo && okHi then (nearer, sc)
      else if okLo then (lo, sc)
      else if okHi then (hi, sc)
      else shortestDecimal f x num den n0 (k + 1)
  end.

Fixpoint stripZeros (fuel : nat) (s sc : Z) : Z * Z :=
  match fuel with
  | O => (s, sc)
  | S f => if (0 <? s) && (s mod 10 =? 0) then stripZeros f (s / 10) (sc + 1) else (s, sc)
  end.

(** The digits [ds] (there are [k] of them) and the exponent [n] laid out
    as Number::toString prescribes. *)
Definition formatDigits (ds : list Z) (n : Z) : string :=
  match ds with
  | [] => "0"
  | d0 :: rest =>
      let k := Z.of_nat (length ds) in
      if (k <=? n) && (n <=? 21) then
        String (digitChar d0) (digitsToString (rest ++ zeros (n - k)))
      else if (0 <? n) && (n <=? 21) then
        String (digitChar d0)
          (digitsToString (take (Z.to_nat (n - 1)) rest) ++ "." ++
           digitsToString (drop (Z.to_nat (n - 1)) rest))
      else if (-6 <? n) && (n <=? 0) then
        String "0" ("." ++ digitsToString (zeros (- n) ++ ds))
      else
        let e := n - 1 in
        let mantissa := match rest with [] => "" | _ => "." ++ digitsToString rest end in
        String (digitChar d0)
          (mantissa ++ "e" ++ (if e <? 0 then "-" else "+") ++
           digitsToString (decimalDigits (Z.abs e)))
  end.

Definition positiveToString (x : number) (m : positive) (e : Z) : string :=
  let num := if e <? 0 then Zpos m else Zpos m * 2 ^ e in
  let den := if e <? 0 then 2 ^ (- e) else 1 in
  let n0 := decimalExponent num den in
  let '(s, sc) := shortestDecimal 17 x num den n0 1 in
  let '(s, sc) := stripZeros 17 s sc in
  let ds := decimalDigits s in
  formatDigits ds (Z.of_nat (length ds) + sc).

Definition numberToString (x : number) : string :=
  match x with
  | S754_nan => "NaN"
  | S754_zero _ => "0"
  | S754_infinity s => if s then "-Infinity" else "Infinity"
  | S754_finite s m e =>
      let body := positiveToString (S754_finite false m e) m e in
      if s then String "-" body else body
  end.

(** ** Conversions and operators *)

Definition ToString (v : value) : string :=
  match v with
  | VUndefined => "undefined"
  | VNull => "null"
  | VBool b => if b then "true" else "false"
  | VNum x => numberToString x
  | VStr s => s
  | VFile _ => "[object File]"
  end.

Definition ToBoolean (v : value) : bool :=
  match v with
  | VUndefined | VNull => false
  | VBool b => b
  | VNum x => negb (isNaN x || isZero x)
  | VStr s => negb (isEmptyString s)
  | VFile _ => true
  end.

(** [v === s] for a string literal [s]. *)
Definition isString (v : value) (s : string) : bool :=
  match v with VStr s' => String.eqb s' s | _ => false end.

(** [a || b]. *)
Definition orElse (a b : value) : value := if ToBoolean a then a else b.

Definition parseInt (v : value) : number := parseIntString (ToString v).
Definition parseFloat (v : value) : number := parseFloatString (ToString v).

(** ** Objects *)

(** [obj[key]] on an object whose own properties are [obj], for a key that
    is not the name of an inherited member. *)
Definition get (obj : gmap string value) (key : string) : value :=
  default VUndefined (obj !! key).

(** The names every object inherits from [Object.prototype]. *)
Definition objectPrototypeNames : list string :=
  [ "constructor"; "hasOwnProperty"; "isPrototypeOf"; "propertyIsEnumerable";
    "toLocaleString"; "toString"; "valueOf"; "__proto__";
    "__defineGetter__"; "__defineSetter__"; "__lookupGetter__"; "__lookupSetter__" ].

Definition isInherited (key : string) : bool :=
  existsb (String.eqb key) objectPrototypeNames.

End JS.

Import JS.

(** Abrupt completion: a call returns a value or throws. *)
Inductive exn := Exn (name message : string).

Definition message (e : exn) : string := let 'Exn _ m := e in m.

Inductive completion (A : Type) :=
  | Normal (a : A)
  | Throw (e : exn).
Arguments Normal {A} a.
Arguments Throw {A} e.

Definition TypeError (msg : string) : exn := Exn "TypeError" msg.

(* ===================================================================== *)
(** * utils/validation.js *)
(* ===================================================================== *)

Module Validation.

Record stepRules := {
  required : list string;
  conditionalRequired : option (list (string * list (string * list string)));
  optional : list string
}.

Definition validationRules (step : Z) : option stepRules :=
  match step with
  | 0 => Some {| required := ["age"; "gender"; "employment_status"];
                 conditionalRequired := None;
                 optional := ["full_name"; "occupation"; "state_of_residence"] |}
  | 1 => Some {| required := ["total_monthly_inflow"; "total_monthly_outflow";
                              "transaction_frequency"; "salary_payment_detected";
                              "end_of_month_balance"; "highest_credit_amount";
                              "highest_debit_amount"];
                 conditionalRequired := None;
                 optional := ["bank_statement"; "gambling_transactions_count";
                              "loan_related_transactions_count"] |}
  | 2 => Some {| required := ["previous_loan_taken"];
                 conditionalRequired :=
                   Some [("previous_loan_taken",
                          [("Yes", ["previous_loan_amount"; "repayment_status";
                                    "missed_payment_count"])])];
                 optional := [] |}
  | 3 => Some {| required := ["airtime_spend_per_month"; "data_subscription_spend"];
                 conditionalRequired := None;
                 optional := [] |}
  | _ => None
  end.

Definition fieldLabels : list (string * string) :=
  [ ("age", "Age"); ("gender", "Gender"); ("employment_status", "Employment Status");
    ("full_name", "Full Name"); ("occupation", "Occupation");
    ("state_of_residence", "State of Residence");
    ("total_monthly_inflow", "Total Monthly Inflow");
    ("total_monthly_outflow", "Total Monthly Outflow");
    ("transaction_frequency", "Transaction Frequency");
    ("salary_payment_detected", "Salary Payment Detected");
    ("end_of_month_balance", "End of Month Balance");
    ("highest_credit_amount", "Highest Credit Amount");
    ("highest_debit_amount", "Highest Debit Amount");
    ("gambling_transactions_count", "Gambling Transactions");
    ("loan_related_transactions_count", "Loan-Related Transactions");
    ("previous_loan_taken", "Previous Loan Taken");
    ("previous_loan_amount", "Previous Loan Amount");
    ("repayment_status", "Repayment Status");
    ("missed_payment_count", "Missed Payment Count");
    ("airtime_spend_per_month", "Airtime Spend per Month");
    ("data_subscription_spend", "Data Subscription Spend") ].

Fixpoint assoc {A : Type} (key : string) (l : list (string * A)) : option A :=
  match l with
  | [] => None
  | (k, a) :: r => if String.eqb k key then Some a else assoc key r
  end.

(** The template literal [`${fieldLabels[field]} is required`]. *)
Definition requiredMessage (field : string) : string :=
  default "undefined" (assoc field fieldLabels) ++ " is required".

Definition isEmpty (v : value) : bool :=
  match v with
  | VNull | VUndefined => true
  | VStr s => isEmptyString (trim s)
  | VNum x => isNaN x
  | _ => false
  end.

(** One [forEach] over a list of fields: every empty one gets its message. *)
Definition checkFields (formData : gmap string value) (fields : list string)
    (errors : gmap string string) : gmap string string :=
  foldl (fun errs field =>
           if isEmpty (get formData field)
           then <[field := requiredMessage field]> errs
           else errs)
        errors fields.

(** What [conditions[triggerValue]] evaluates to: the array stored under an
    own key, a member inherited from [Object.prototype], or [undefined]. *)
Inductive condition :=
  | OwnFields (fields : list string)
  | InheritedMember
  | NoCondition.

Definition lookupCondition (conditions : list (string * list string))
    (triggerValue : value) : condition :=
  let key := ToString triggerValue in
  match assoc key conditions with
  | Some fields => OwnFields fields
  | None => if isInherited key then InheritedMember else NoCondition
  end.

(** The [forEach] over [Object.entries(rules.conditionalRequired)]. An
    inherited member is truthy and has no [forEach]: calling it throws. *)
Fixpoint checkConditional (formData : gmap string value)
    (entries : list (string * list (string * list string)))
    (errors : gmap string string) : completion (gmap string string) :=
  match entries with
  | [] => Normal errors
  | (triggerField, conditions) :: rest =>
      match lookupCondition conditions (get formData triggerField) with
      | OwnFields fields =>
          checkConditional formData rest (checkFields formData fields errors)
      | InheritedMember =>
          Throw (TypeError "conditions[triggerValue].forEach is not a function")
      | NoCondition => checkConditional formData rest errors
      end
  end.

Record validation := { isValid : bool; errors : gmap string string }.

Definition validateStep (step : Z) (formData : gmap string value)
    : completion validation :=
  match validationRules step with
  | None => Throw (TypeError "Cannot read properties of undefined (reading 'required')")
  | Some rules =>
      let errors := checkFields formData (required rules) ∅ in
      let checked :=
        match conditionalRequired rules with
        | Some entries => checkConditional formData entries errors
        | None => Normal errors
        end in
      match checked with
      | Normal errors =>
          Normal {| isValid := Nat.eqb (size errors) 0; errors := errors |}
      | Throw e => Throw e
      end
  end.

(** [requiredFields.push(...conditions[triggerValue])]: spreading an
    inherited member, which is not iterable, throws. *)
Fixpoint pushConditional (formData : gmap string value)
    (entries : list (string * list (string * list string)))
    (requiredFields : list string) : completion (list string) :=
  match entries with
  | [] => Normal requiredFields
  | (triggerField, conditions) :: rest =>
      match lookupCondition conditions (get formData triggerField) with
      | OwnFields fields => pushConditional formData rest (requiredFields ++ fields)
      | InheritedMember => Throw (TypeError "conditions[triggerValue] is not iterable")
      | NoCondition => pushConditional formData rest requiredFields
      end
  end.

Definition getRequiredFields (step : Z) (formData : gmap string value)
    : completion (list string) :=
  match validationRules step with
  | None => Throw (TypeError "Cannot read properties of undefined (reading 'required')")
  | Some rules =>
      match conditionalRequired rules with
      | Some entries => pushConditional formData entries (required rules)
      | None => Normal (required rules)
      end
  end.

Definition isFieldRequired (field : string) (step : Z) (formData : gmap string value)
    : completion bool :=
  match getRequiredFields step formData with
  | Normal requiredFields => Normal (existsb (String.eqb field) requiredFields)
  | Throw e => Throw e
  end.

End Validation.

(* ===================================================================== *)
(** * utils/formData.js *)
(* ===================================================================== *)

Module FormData.

Definition initialFormData : gmap string value :=
  list_to_map
    [ ("full_name", VStr "");
      ("age", VStr "");
      ("gender", VStr "");
      ("employment_status", VStr "");
      ("bank_statement", VNull);
      ("total_monthly_inflow", VStr "");
      ("total_monthly_outflow", VStr "");
      ("transaction_frequency", VStr "");
      ("salary_payment_detected", VStr "");
      ("end_of_month_balance", VStr "");
      ("highest_credit_amount", VStr "");
      ("highest_debit_amount", VStr "");
      ("gambling_transactions_count", VStr "");
      ("loan_related_transactions_count", VStr "");
      ("previous_loan_taken", VStr "");
      ("previous_loan_amount", VStr "");
      ("repayment_status", VStr "");
      ("missed_payment_count", VStr "");
      ("airtime_spend_per_month", VStr "");
      ("data_subscription_spend", VStr "") ].

Inductive stepComponent := UserDemographics | FileUpload | LoanHistory | UserBehaviour.

(** A step of the wizard: its label and the component that renders it (the
    icon is left out). *)
Record formStep := { label : string; component : stepComponent }.

Definition formSteps : list formStep :=
  [ {| label := "Demographics"; component := UserDemographics |};
    {| label := "Financial Data"; component := FileUpload |};
    {| label := "Loan History"; component := LoanHistory |};
    {| label := "Behaviour"; component := UserBehaviour |} ].

End FormData.

(** A pending service call settles with the parsed JSON body, an object as
    the client documents it, or with the exception the client raised. *)
Inductive outcome :=
  | Resolved (body : gmap string value)
  | Rejected (e : exn).

(** [error.message || fallback]. *)
Definition messageOr (e : exn) (fallback : string) : string :=
  if isEmptyString (message e) then fallback else message e.

(* ===================================================================== *)
(** * The step components' change handlers *)
(* ===================================================================== *)

(** Each handler is given with the record it passes to [setFormData]. *)

Module UserDemographics.

Definition handleChange (formData : gmap string value) (field : string) (v : value)
    : gmap string value :=
  <[field := v]> formData.

End UserDemographics.

Module UserBehaviour.

Definition handleChange (formData : gmap string value) (field : string) (v : value)
    : gmap string value :=
  <[field := v]> formData.

End UserBehaviour.

Module LoanHistory.

Definition handleChange (formData : gmap string value) (field : string) (v : value)
    : gmap string value :=
  if String.eqb field "previous_loan_taken" && isString v "No"
  then <["missed_payment_count" := VStr "0"]>
         (<["repayment_status" := VStr "N/A"]>
            (<["previous_loan_amount" := VStr ""]>
               (<[field := v]> formData)))
  else <[field := v]> formData.

End LoanHistory.

(* ===================================================================== *)
(** * components/FileUpload.jsx *)
(* ===================================================================== *)

Module FileUpload.

(** The component's own state next to the record it shares with the page. *)
Record state := {
  formData : gmap string value;
  fileName : string;
  isExtracting : bool;
  extractionError : option string;
  extractionSuccess : bool
}.

Definition financialFields : list string :=
  [ "total_monthly_inflow"; "total_monthly_outflow"; "transaction_frequency";
    "salary_payment_detected"; "end_of_month_balance"; "highest_credit_amount";
    "highest_debit_amount"; "gambling_transactions_count";
    "loan_related_transactions_count" ].

(** [handleFileChange] up to its [await]: with no file chosen nothing
    happens; otherwise the file is stored and [extractFinancialData(file)]
    is called (the second component is the file handed to the service). *)
Definition handleFileChange (file : option string) (st : state) : state * option value :=
  match file with
  | None => (st, None)
  | Some name =>
      ({| formData := <["bank_statement" := VFile name]> (formData st);
          fileName := name;
          isExtracting := true;
          extractionError := None;
          extractionSuccess := false |},
       Some (VFile name))
  end.

(** The updater [prev => ({...prev, bank_statement: file, ...})]. *)
Definition mergeExtracted (file : value) (extracted prev : gmap string value)
    : gmap string value :=
  foldl (fun r field => <[field := get extracted field]> r)
        (<["bank_statement" := file]> prev)
        financialFields.

(** [handleFileChange] from the moment the extraction settles. *)
Definition handleFileChangeSettled (file : value) (o : outcome) (st : state) : state :=
  match o with
  | Resolved extracted =>
      {| formData := mergeExtracted file extracted (formData st);
         fileName := fileName st;
         isExtracting := false;
         extractionError := extractionError st;
         extractionSuccess := true |}
  | Rejected error =>
      {| formData := formData st;
         fileName := fileName st;
         isExtracting := false;
         extractionError :=
           Some (messageOr error "Failed to extract data. Please fill manually.");
         extractionSuccess := extractionSuccess st |}
  end.

(** One whole upload attempt, the service answering [o]. *)
Definition uploadAttempt (file : string) (o : outcome) (st : state) : state :=
  handleFileChangeSettled (VFile file) o (fst (handleFileChange (Some file) st)).

Definition handleInputChange (formData : gmap string value) (field : string) (v : value)
    : gmap string value :=
  <[field := v]> formData.

End FileUpload.

(* ===================================================================== *)
(** * pages/CreditForm.jsx *)
(* ===================================================================== *)

Module CreditForm.

Import Validation FormData.

Record predictionResults := {
  loan_defaulted : value;
  credit_score_generated : value;
  risk_category : value;
  default_probability : value
}.

(** The page's eight [useState] cells. *)
Record state := {
  currentStep : Z;
  showResults : bool;
  formData : gmap string value;
  results : option predictionResults;
  feedback : value;
  isSubmitting : bool;
  submitError : option string;
  stepErrors : gmap string string
}.

Definition initialState : state :=
  {| currentStep := 0; showResults := false; formData := initialFormData;
     results := None; feedback := VNull; isSubmitting := false;
     submitError := None; stepErrors := ∅ |}.

Definition setCurrentStep (v : Z) (st : state) : state :=
  {| currentStep := v; showResults := showResults st; formData := formData st;
     results := results st; feedback := feedback st; isSubmitting := isSubmitting st;
     submitError := submitError st; stepErrors := stepErrors st |}.

Definition setShowResults (v : bool) (st : state) : state :=
  {| currentStep := currentStep st; showResults := v; formData := formData st;
     results := results st; feedback := feedback st; isSubmitting := isSubmitting st;
     submitError := submitError st; stepErrors := stepErrors st |}.

Definition setFormData (v : gmap string value) (st : state) : state :=
  {| currentStep := currentStep st; showResults := showResults st; formData := v;
     results := results st; feedback := feedback st; isSubmitting := isSubmitting st;
     submitError := submitError st; stepErrors := stepErrors st |}.

Definition setResults (v : option predictionResults) (st : state) : state :=
  {| currentStep := currentStep st; showResults := showResults st; formData := formData st;
     results := v; feedback := feedback st; isSubmitting := isSubmitting st;
     submitError := submitError st; stepErrors := stepErrors st |}.

Definition setFeedback (v : value) (st : state) : state :=
  {| currentStep := currentStep st; showResults := showResults st; formData := formData st;
     results := results st; feedback := v; isSubmitting := isSubmitting st;
     submitError := submitError st; stepErrors := stepErrors st |}.

Definition setIsSubmitting (v : bool) (st : state) : state :=
  {| currentStep := currentStep st; showResults := showResults st; formData := formData st;
     results := results st; feedback := feedback st; isSubmitting := v;
     submitError := submitError st; stepErrors := stepErrors st |}.

Definition setSubmitError (v : option string) (st : state) : state :=
  {| currentStep := currentStep st; showResults := showResults st; formData := formData st;
     results := results st; feedback := feedback st; isSubmitting := isSubmitting st;
     submitError := v; stepErrors := stepErrors st |}.

Definition setStepErrors (v : gmap string string) (st : state) : state :=
  {| currentStep := currentStep st; showResults := showResults st; formData := formData st;
     results := results st; feedback := feedback st; isSubmitting := isSubmitting st;
     submitError := submitError st; stepErrors := v |}.

(** [formSteps.length - 1]. *)
Definition lastStep : Z := Z.of_nat (length formSteps) - 1.

(** An exception raised by [validateStep] leaves the handler before any
    setter was called. *)
Definition handleNext (st : state) : state :=
  match validateStep (currentStep st) (formData st) with
  | Throw _ => st
  | Normal v =>
      if negb (isValid v) then setStepErrors (errors v) st
      else
        let st := setStepErrors ∅ st in
        if currentStep st <? lastStep
        then setCurrentStep (currentStep st + 1) st
        else st
  end.

Definition handlePrevious (st : state) : state :=
  let st := setStepErrors ∅ st in
  if 0 <? currentStep st then setCurrentStep (currentStep st - 1) st else st.

(** [parseInt(x) || 0] and [parseFloat(x) || 0]. *)
Definition intOr0 (v : value) : value := orElse (VNum (parseInt v)) (VNum zero).
Definition floatOr0 (v : value) : value := orElse (VNum (parseFloat v)) (VNum zero).

Definition predictionEntries (formData : gmap string value) : list (string * value) :=
  [ ("age", intOr0 (get formData "age"));
    ("gender", get formData "gender");
    ("employment_status", get formData "employment_status");
    ("total_monthly_inflow", floatOr0 (get formData "total_monthly_inflow"));
    ("total_monthly_outflow", floatOr0 (get formData "total_monthly_outflow"));
    ("transaction_frequency", intOr0 (get formData "transaction_frequency"));
    ("salary_payment_detected", orElse (get formData "salary_payment_detected") (VStr "No"));
    ("end_of_month_balance", floatOr0 (get formData "end_of_month_balance"));
    ("highest_credit_amount", floatOr0 (get formData "highest_credit_amount"));
    ("highest_debit_amount", floatOr0 (get formData "highest_debit_amount"));
    ("gambling_transactions_count", intOr0 (get formData "gambling_transactions_count"));
    ("loan_related_transactions_count",
       intOr0 (get formData "loan_related_transactions_count"));
    ("previous_loan_taken", orElse (get formData "previous_loan_taken") (VStr "No"));
    ("previous_loan_amount", floatOr0 (get formData "previous_loan_amount"));
    ("repayment_status", orElse (get formData "repayment_status") (VStr "N/A"));
    ("missed_payment_count", intOr0 (get formData "missed_payment_count"));
    ("airtime_spend_per_month", floatOr0 (get formData "airtime_spend_per_month"));
    ("data_subscription_spend", floatOr0 (get formData "data_subscription_spend")) ].

(** The object literal [predictionData] of [handleSubmit]. *)
Definition predictionData (formData : gmap string value) : gmap string value :=
  list_to_map (predictionEntries formData).

Definition feedbackEntries (formData response : gmap string value)
    : list (string * value) :=
  [ ("name", orElse (get formData "full_name") (VStr ""));
    ("age", intOr0 (get formData "age"));
    ("employment_status", get formData "employment_status");
    ("total_monthly_inflow", floatOr0 (get formData "total_monthly_inflow"));
    ("total_monthly_outflow", floatOr0 (get formData "total_monthly_outflow"));
    ("end_of_month_balance", floatOr0 (get formData "end_of_month_balance"));
    ("salary_payment_detected", orElse (get formData "salary_payment_detected") (VStr "No"));
    ("transaction_frequency", intOr0 (get formData "transaction_frequency"));
    ("gambling_transactions_count", intOr0 (get formData "gambling_transactions_count"));
    ("previous_loan_taken", orElse (get formData "previous_loan_taken") (VStr "No"));
    ("repayment_status", orElse (get formData "repayment_status") (VStr "N/A"));
    ("missed_payment_count", intOr0 (get formData "missed_payment_count"));
    ("credit_score", get response "credit_score");
    ("risk_category", get response "risk_category");
    ("default_probability", get response "default_probability") ].

Definition feedbackData (formData response : gmap string value) : gmap string value :=
  list_to_map (feedbackEntries formData response).

(** What the page does to the outside world, in the order it does it. *)
Inductive effect :=
  | CallPredict (data : gmap string value)
  | PredictReturned (response : gmap string value)
  | PredictFailed (e : exn)
  | CallFeedback (data : gmap string value)
  | FeedbackReturned (response : gmap string value)
  | FeedbackFailed (e : exn).

(** A [handleSubmit] suspended at one of its two [await]s: the payload of
    the pending call and, at the first, the record its closure captured. *)
Inductive task :=
  | AwaitPredict (formData data : gmap string value)
  | AwaitFeedback (data : gmap string value).

(** [handleSubmit] up to [await predictCredit(predictionData)]. *)
Definition handleSubmit (st : state) : state * option task * list effect :=
  match validateStep (currentStep st) (formData st) with
  | Throw _ => (st, None, [])
  | Normal v =>
      if negb (isValid v) then (setStepErrors (errors v) st, None, [])
      else
        (setStepErrors ∅ (setSubmitError None (setIsSubmitting true st)),
         Some (AwaitPredict (formData st) (predictionData (formData st))),
         [CallPredict (predictionData (formData st))])
  end.

(** From the moment [predictCredit] settles to
    [await getFeedback(feedbackData)], or through [catch] and [finally]. *)
Definition predictSettled (formData : gmap string value) (o : outcome) (st : state)
    : state * option task * list effect :=
  match o with
  | Resolved response =>
      let predictionResults :=
        {| loan_defaulted := get response "loan_defaulted";
           credit_score_generated := get response "credit_score";
           risk_category := get response "risk_category";
           default_probability := get response "default_probability" |} in
      (setResults (Some predictionResults) st,
       Some (AwaitFeedback (feedbackData formData response)),
       [PredictReturned response; CallFeedback (feedbackData formData response)])
  | Rejected error =>
      (setIsSubmitting false
         (setSubmitError
            (Some (messageOr error "Failed to get prediction. Please try again.")) st),
       None,
       [PredictFailed error])
  end.

(** From the moment [getFeedback] settles to the end of [handleSubmit]. *)
Definition feedbackSettled (o : outcome) (st : state) : state * list effect :=
  let '(st, done) :=
    match o with
    | Resolved feedbackResponse =>
        (setFeedback (get feedbackResponse "feedback") st,
         FeedbackReturned feedbackResponse)
    | Rejected feedbackError => (setFeedback VNull st, FeedbackFailed feedbackError)
    end in
  (setIsSubmitting false (setShowResults true st), [done]).

Definition handleNewAssessment (st : state) : state :=
  setStepErrors ∅
    (setFeedback VNull
       (setResults None
          (setFormData initialFormData
             (setCurrentStep 0
                (setShowResults false st))))).

(** One whole [handleSubmit], the two services answering as [predict] and
    [getFeedback] say and nothing else happening in between. *)
Definition submission (predict getFeedback : gmap string value -> outcome) (st : state)
    : state * list effect :=
  match handleSubmit st with
  | (st1, Some (AwaitPredict fd data), t1) =>
      match predictSettled fd (predict data) st1 with
      | (st2, Some (AwaitFeedback data), t2) =>
          let '(st3, t3) := feedbackSettled (getFeedback data) st2 in
          (st3, (t1 ++ t2 ++ t3)%list)
      | (st2, _, t2) => (st2, (t1 ++ t2)%list)
      end
  | (st1, _, t1) => (st1, t1)
  end.

(** ** What is on screen *)

Inductive view := ResultsView | FormView.

(** [showResults && results] selects the result card. *)
Definition render (st : state) : view :=
  if showResults st && bool_decide (is_Some (results st)) then ResultsView else FormView.

Definition previousEnabled (st : state) : bool :=
  match render st with
  | FormView => negb (currentStep st =? 0)
  | ResultsView => false
  end.

Definition nextShown (st : state) : bool :=
  match render st with
  | FormView => negb (currentStep st =? lastStep)
  | ResultsView => false
  end.

(** The Submit button is there on the last step and [disabled] while
    [isSubmitting]. *)
Definition submitEnabled (st : state) : bool :=
  match render st with
  | FormView => (currentStep st =? lastStep) && negb (isSubmitting st)
  | ResultsView => false
  end.

Definition newAssessmentShown (st : state) : bool :=
  match render st with
  | ResultsView => true
  | FormView => false
  end.

(** ** The session: the page, its suspended submissions, and its trace *)

(** A session is one mount of the page. *)
Record session := {
  ui : state;
  inflight : list task;
  trace : list effect
}.

Definition initialSession : session :=
  {| ui := initialState; inflight := []; trace := [] |}.

Inductive event :=
  | ClickNext
  | ClickPrevious
  | ClickSubmit
  | ClickNewAssessment
  | SetFormData (r : gmap string value)
  | Settles (i : nat) (o : outcome).

Definition withUi (st : state) (s : session) : session :=
  {| ui := st; inflight := inflight s; trace := trace s |}.

(** A click reaches its handler only when the button is shown and not
    disabled. [SetFormData] is a step component, or a pending extraction,
    calling the setter it was given. [Settles i o] resumes the [i]-th
    suspended submission with the answer [o]. *)
Definition dispatch (e : event) (s : session) : session :=
  match e with
  | ClickNext => if nextShown (ui s) then withUi (handleNext (ui s)) s else s
  | ClickPrevious => if previousEnabled (ui s) then withUi (handlePrevious (ui s)) s else s
  | ClickNewAssessment =>
      if newAssessmentShown (ui s) then withUi (handleNewAssessment (ui s)) s else s
  | SetFormData r => withUi (setFormData r (ui s)) s
  | ClickSubmit =>
      if submitEnabled (ui s) then
        let '(st, t, eff) := handleSubmit (ui s) in
        {| ui := st;
           inflight := (inflight s ++ match t with Some t => [t] | None => [] end)%list;
           trace := (trace s ++ eff)%list |}
      else s
  | Settles i o =>
      match inflight s !! i with
      | None => s
      | Some (AwaitPredict fd _) =>
          let '(st, t, eff) := predictSettled fd o (ui s) in
          {| ui := st;
             inflight := match t with
                         | Some t => <[i := t]> (inflight s)
                         | None => delete i (inflight s)
                         end;
             trace := (trace s ++ eff)%list |}
      | Some (AwaitFeedback _) =>
          let '(st, eff) := feedbackSettled o (ui s) in
          {| ui := st; inflight := delete i (inflight s);
             trace := (trace s ++ eff)%list |}
      end
  end.

Definition run (events : list event) : session :=
  foldl (fun s e => dispatch e s) initialSession events.

End CreditForm.

(* ===================================================================== *)
(** * The design document's vocabulary *)
(* ===================================================================== *)

Module Design.

Import Validation FormData.

(** A value is empty when it is [null], [undefined], a string that is empty
    or made of white space only, or the Number [NaN]. *)
Definition emptyValue (v : value) : Prop :=
  v = VNull \/ v = VUndefined \/
  (exists s, v = VStr s /\ allWhiteSpace s = true) \/
  v = VNum NaN.

(** The fields a step requires of a record: its required set together with
    the additional fields of every conditional rule whose trigger field
    equals the rule's trigger value. *)
Definition requiredNow (rules : stepRules) (formData : gmap string value) : list string :=
  (required rules ++
   flat_map (fun '(triggerField, conditions) =>
               flat_map (fun '(triggerValue, fields) =>
                           if isString (get formData triggerField) triggerValue
                           then fields else [])
                        conditions)
            (match conditionalRequired rules with Some entries => entries | None => [] end))%list.

(** Some trigger field of the step holds the name of a member that every
    object inherits. *)
Definition inheritedTrigger (rules : stepRules) (formData : gmap string value) : bool :=
  existsb (fun '(triggerField, conditions) =>
             match lookupCondition conditions (get formData triggerField) with
             | InheritedMember => true
             | _ => false
             end)
          (match conditionalRequired rules with Some entries => entries | None => [] end).

(** The first code unit of a Number's string form is a digit, a minus
    sign, or the initial of [Infinity] or [NaN]. *)
Definition numericHead (s : string) : bool :=
  match s with
  | String c _ =>
      existsb (Ascii.eqb c)
        ["0"; "1"; "2"; "3"; "4"; "5"; "6"; "7"; "8"; "9"; "-"; "I"; "N"]%char
  | EmptyString => false
  end.

(** How [predictionData] types the fields of the payload: thirteen are
    read with [parseInt] or [parseFloat] and fall back to [0], three fall
    back to a fixed string, two are passed as they are. *)
Inductive numeric := Integer | Float.

Definition parse (kind : numeric) (v : value) : number :=
  match kind with Integer => parseInt v | Float => parseFloat v end.

Definition numericFields : list (string * numeric) :=
  [ ("age", Integer);
    ("total_monthly_inflow", Float);
    ("total_monthly_outflow", Float);
    ("transaction_frequency", Integer);
    ("end_of_month_balance", Float);
    ("highest_credit_amount", Float);
    ("highest_debit_amount", Float);
    ("gambling_transactions_count", Integer);
    ("loan_related_transactions_count", Integer);
    ("previous_loan_amount", Float);
    ("missed_payment_count", Integer);
    ("airtime_spend_per_month", Float);
    ("data_subscription_spend", Float) ].

Definition enumeratedFields : list (string * string) :=
  [ ("salary_payment_detected", "No");
    ("previous_loan_taken", "No");
    ("repayment_status", "N/A") ].





(** ** The wizard's states, as the page realises them *)

Import CreditForm.

(** The four scoring fields of a prediction response. *)
Definition scoringOf (response : gmap string value) : predictionResults :=
  {| loan_defaulted := get response "loan_defaulted";
     credit_score_generated := get response "credit_score";
     risk_category := get response "risk_category";
     default_probability := get response "default_probability" |}.

(** The step index is within the registry. *)
Definition stepInRange (s : session) : Prop :=
  0 <= currentStep (ui s) <= lastStep.

(** Where a session stands with respect to submission: nothing in flight;
    one submission waiting for the prediction; or one submission waiting
    for the feedback, the prediction being in [results] already. *)
Inductive phase (s : session) : Prop :=
  | Idle :
      inflight s = [] ->
      isSubmitting (ui s) = false ->
      (showResults (ui s) = true ->
       is_Some (results (ui s)) /\ submitError (ui s) = None) ->
      phase s
  | Predicting fd t0 :
      inflight s = [AwaitPredict fd (predictionData fd)] ->
      isSubmitting (ui s) = true ->
      showResults (ui s) = false ->
      submitError (ui s) = None ->
      trace s = (t0 ++ [CallPredict (predictionData fd)])%list ->
      phase s
  | AwaitingFeedback fd response t0 :
      inflight s = [AwaitFeedback (feedbackData fd response)] ->
      isSubmitting (ui s) = true ->
      showResults (ui s) = false ->
      submitError (ui s) = None ->
      results (ui s) = Some (scoringOf response) ->
      trace s = (t0 ++ [PredictReturned response;
                        CallFeedback (feedbackData fd response)])%list ->
      phase s.

(** Every call of the feedback service in a trace comes right after a
    prediction that returned. *)
Definition feedbackAfterPredict (t : list effect) : Prop :=
  forall t1 data t2,
    t = (t1 ++ CallFeedback data :: t2)%list ->
    exists t0 response, t1 = (t0 ++ [PredictReturned response])%list.

Definition invariant (s : session) : Prop :=
  stepInRange s /\ phase s /\ feedbackAfterPredict (trace s).

End Design.

(* ===================================================================== *)
(** * A session, for reference *)
(* ===================================================================== *)

Module Scenario.

Import FormData CreditForm.

(** A record that passes every step; the applicant took no loan before and
    left the optional counts blank. *)
Definition applicant : gmap string value :=
  list_to_map
    [ ("full_name", VStr "Ada Obi");
      ("age", VStr "34");
      ("gender", VStr "Female");
      ("employment_status", VStr "Employed");
      ("bank_statement", VNull);
      ("total_monthly_inflow", VStr "5000");
      ("total_monthly_outflow", VStr "3000");
      ("transaction_frequency", VStr "42");
      ("salary_payment_detected", VStr "Yes");
      ("end_of_month_balance", VStr "1250.50");
      ("highest_credit_amount", VStr "4000");
      ("highest_debit_amount", VStr "900");
      ("gambling_transactions_count", VStr "");
      ("loan_related_transactions_count", VStr "");
      ("previous_loan_taken", VStr "No");
      ("previous_loan_amount", VStr "");
      ("repayment_status", VStr "N/A");
      ("missed_payment_count", VStr "0");
      ("airtime_spend_per_month", VStr "0");
      ("data_subscription_spend", VStr "1500") ].

(** [{credit_score: 72, risk_category: "Low", default_probability: 0.12,
    loan_defaulted: 0}]. *)
Definition predicted : gmap string value :=
  list_to_map
    [ ("credit_score", VNum (decimalToNumber false 72 0));
      ("risk_category", VStr "Low");
      ("default_probability", VNum (decimalToNumber false 12 (-2)));
      ("loan_defaulted", VNum zero) ].

Definition unreachable : exn := Exn "TypeError" "Failed to fetch".

(** The applicant fills the form, walks to the last step and submits. *)
Definition toSubmit : list event :=
  [SetFormData applicant; ClickNext; ClickNext; ClickNext; ClickSubmit].

(** ... and the prediction returns. *)
Definition toFeedback : list event :=
  (toSubmit ++ [Settles 0 (Resolved predicted)])%list.

(** ... and the feedback call fails. *)
Definition toResults : list event :=
  (toFeedback ++ [Settles 0 (Rejected unreachable)])%list.

End Scenario.

(* ===================================================================== *)
(** * What the step components put on screen *)
(* ===================================================================== *)

Module Views.

Import Validation FormData.

(** A labelled input is marked required ([RequiredLabel], with its star) or
    optional ([OptionalLabel]). *)
Inductive marker := Required | Optional.

(** The inputs each step component renders, in order, with their markers.
    [LoanHistory] renders its last three inputs only while
    [formData.previous_loan_taken === 'Yes']. *)
Definition inputs (c : stepComponent) (formData : gmap string value)
    : list (string * marker) :=
  match c with
  | UserDemographics =>
      [ ("full_name", Optional); ("age", Required); ("gender", Required);
        ("employment_status", Required) ]
  | FileUpload =>
      [ ("total_monthly_inflow", Required); ("total_monthly_outflow", Required);
        ("transaction_frequency", Required); ("salary_payment_detected", Required);
        ("end_of_month_balance", Required); ("highest_credit_amount", Required);
        ("highest_debit_amount", Required);
        ("gambling_transactions_count", Optional);
        ("loan_related_transactions_count", Optional) ]
  | LoanHistory =>
      (("previous_loan_taken", Required) ::
       if isString (get formData "previous_loan_taken") "Yes"
       then [ ("previous_loan_amount", Required); ("repayment_status", Required);
              ("missed_payment_count", Required) ]
       else [])
  | UserBehaviour =>
      [ ("airtime_spend_per_month", Required); ("data_subscription_spend", Required) ]
  end.

Definition starred (l : list (string * marker)) : list string :=
  flat_map (fun '(f, m) => match m with Required => [f] | Optional => [] end) l.

Definition unstarred (l : list (string * marker)) : list string :=
  flat_map (fun '(f, m) => match m with Required => [] | Optional => [f] end) l.

(** [formSteps[step].component]. *)
Definition componentAt (step : Z) : option stepComponent :=
  if step <? 0 then None else component <$> (formSteps !! Z.to_nat step).

(** Every field [validateStep] reads on a step: the required ones, the
    trigger fields, and the fields a trigger can add. *)
Definition fieldsRead (rules : stepRules) : list string :=
  (required rules ++
   flat_map (fun '(triggerField, conditions) =>
               triggerField :: flat_map snd conditions)
            (match conditionalRequired rules with
             | Some entries => entries
             | None => []
             end))%list.

(** The fields of the feedback request that the prediction request has
    too. *)
Definition repeatedFields : list string :=
  [ "age"; "employment_status"; "total_monthly_inflow"; "total_monthly_outflow";
    "end_of_month_balance"; "salary_payment_detected"; "transaction_frequency";
    "gambling_transactions_count"; "previous_loan_taken"; "repayment_status";
    "missed_payment_count" ].

(** An error map whose every entry is the message of a labelled field. *)
Definition labelled (errs : gmap string string) : Prop :=
  forall f msg, errs !! f = Some msg ->
  exists label, assoc f fieldLabels = Some label /\ msg = label ++ " is required".

End Views.

(* ===================================================================== *)
(** * The shape of a session's trace *)
(* ===================================================================== *)

Module Rounds.

Import Validation FormData CreditForm Design.

(** The record validates on the last step. *)
Definition passesLastStep (formData : gmap string value) : Prop :=
  exists v, validateStep lastStep formData = Normal v /\ isValid v = true.

(** How a feedback call ends, and what it leaves in the [feedback] cell. *)
Definition feedbackEnd (e : effect) : bool :=
  match e with FeedbackReturned _ | FeedbackFailed _ => true | _ => false end.

Definition feedbackOf (e : effect) : value :=
  match e with FeedbackReturned response => get response "feedback" | _ => VNull end.

(** One complete run of [handleSubmit] past validation: a prediction that
    failed, or a prediction that returned followed by its feedback call and
    the way that call ended. Both requests are built from the same record. *)
Inductive round : list effect -> Prop :=
  | FailedRound fd e :
      passesLastStep fd ->
      round [CallPredict (predictionData fd); PredictFailed e]
  | ScoredRound fd response done :
      passesLastStep fd ->
      feedbackEnd done = true ->
      round [CallPredict (predictionData fd); PredictReturned response;
             CallFeedback (feedbackData fd response); done].

Inductive rounds : list effect -> Prop :=
  | NoRound : rounds []
  | MoreRounds t r : rounds t -> round r -> rounds (t ++ r).

(** The trace of a session is a sequence of complete rounds followed by the
    part of a round that the submission in flight has run so far. *)
Inductive sequenced (s : session) : Prop :=
  | SeqIdle :
      inflight s = [] ->
      rounds (trace s) ->
      (showResults (ui s) = true ->
       exists t fd response done,
         trace s = (t ++ [CallPredict (predictionData fd); PredictReturned response;
                          CallFeedback (feedbackData fd response); done])%list /\
         feedbackEnd done = true /\
         results (ui s) = Some (scoringOf response) /\
         feedback (ui s) = feedbackOf done) ->
      sequenced s
  | SeqPredicting fd t :
      inflight s = [AwaitPredict fd (predictionData fd)] ->
      passesLastStep fd ->
      rounds t ->
      trace s = (t ++ [CallPredict (predictionData fd)])%list ->
      sequenced s
  | SeqAwaiting fd response t :
      inflight s = [AwaitFeedback (feedbackData fd response)] ->
      passesLastStep fd ->
      rounds t ->
      trace s = (t ++ [CallPredict (predictionData fd); PredictReturned response;
                       CallFeedback (feedbackData fd response)])%list ->
      results (ui s) = Some (scoringOf response) ->
      sequenced s.

End Rounds.

(* ===================================================================== *)
(** * components/Stepper.jsx *)
(* ===================================================================== *)

Module Stepper.

Import FormData.

(** What a circle shows: the check mark or the number of the step. *)
Inductive badge := Check | Number (n : Z).

(** One entry of [steps.map]: the circle is filled when
    [currentStep >= index], glows when [currentStep === index], shows the
    check mark when [currentStep > index] and [index + 1] otherwise; it is
    followed by a connector when [index < steps.length - 1], gold when
    [currentStep > index]. The caption under the circle, the step's icon
    and label, is left out. *)
Record item := {
  filled : bool;
  glows : bool;
  content : badge;
  connector : option bool
}.

Fixpoint items (currentStep total index : Z) (steps : list formStep) : list item :=
  match steps with
  | [] => []
  | step :: rest =>
      {| filled := index <=? currentStep;
         glows := currentStep =? index;
         content := if index <? currentStep then Check else Number (index + 1);
         connector := if index <? total - 1 then Some (index <? currentStep) else None |}
      :: items currentStep total (index + 1) rest
  end.

Definition Stepper (currentStep : Z) (steps : list formStep) : list item :=
  items currentStep (Z.of_nat (length steps)) 0 steps.

Fixpoint count {A : Type} (p : A -> bool) (l : list A) : Z :=
  match l with
  | [] => 0
  | a :: r => (if p a then 1 else 0) + count p r
  end.

Definition isCheck (i : item) : bool :=
  match content i with Check => true | Number _ => false end.

Definition hasConnector (i : item) : bool :=
  match connector i with Some _ => true | None => false end.

Definition goldConnector (i : item) : bool :=
  match connector i with Some gold => gold | None => false end.

End Stepper.

(* ===================================================================== *)
(** * components/ResultCard.jsx *)
(* ===================================================================== *)

Module ResultCard.

Import CreditForm.

Definition getRiskColorClass (risk : value) : string :=
  if isString risk "Low" then "bg-green-500"
  else if isString risk "Medium" then "bg-muted-gold"
  else "bg-red-500".

Definition getRiskTextClass (risk : value) : string :=
  if isString risk "Low" then "text-green-500"
  else if isString risk "Medium" then "text-muted-gold"
  else "text-red-500".

Definition getRiskBorderClass (risk : value) : string :=
  if isString risk "Low" then "border-green-200"
  else if isString risk "Medium" then "border-muted-gold/30"
  else "border-red-200".

Definition getRiskBgClass (risk : value) : string :=
  if isString risk "Low" then "bg-green-50"
  else if isString risk "Medium" then "bg-amber-50"
  else "bg-red-50".

(** [x === 0]. *)
Definition isNumberZero (v : value) : bool :=
  match v with VNum x => isZero x | _ => false end.

(** What [{feedback && (<div>...</div>)}] renders: the block when
    [feedback] is truthy; the text of a falsy Number; nothing for [null],
    [undefined], [false] and the empty string. *)
Inductive assessment :=
  | Block (borderClass bgClass iconClass : string) (text : value)
  | Text (s : string)
  | Nothing.

Record card := {
  badgeClass : string;
  title : string;
  creditScore : value;
  riskCategory : value;
  riskTextClass : string;
  defaultRisk : string;
  defaultRiskClass : string;
  aiAssessment : assessment
}.

Definition ResultCard (results : predictionResults) (userName feedback : value) : card :=
  {| badgeClass := getRiskColorClass (risk_category results);
     title := if ToBoolean userName
              then ToString userName ++ "'s Assessment Complete!"
              else "Assessment Complete!";
     creditScore := credit_score_generated results;
     riskCategory := risk_category results;
     riskTextClass := getRiskTextClass (risk_category results);
     defaultRisk := if isNumberZero (loan_defaulted results) then "Low" else "High";
     defaultRiskClass := if isNumberZero (loan_defaulted results)
                         then "text-green-500" else "text-red-500";
     aiAssessment :=
       if ToBoolean feedback
       then Block (getRiskBorderClass (risk_category results))
                  (getRiskBgClass (risk_category results))
                  (getRiskColorClass (risk_category results))
                  feedback
       else match feedback with
            | VNum x => Text (numberToString x)
            | _ => Nothing
            end |}.

(** The card the page puts on screen: [showResults && results] selects it,
    with [formData.full_name] as [userName]. *)
Definition shown (st : state) : option card :=
  if showResults st
  then match results st with
       | Some r => Some (ResultCard r (get (formData st) "full_name") (feedback st))
       | None => None
       end
  else None.

End ResultCard.


(* ===================================================================== *)
(** * What the step components write into the record *)
(* ===================================================================== *)

Module Entry.

Import Validation FormData Views.

(** The [<option>] values of the five [<select>] elements. Every other
    input is a text or number box. *)
Definition selectOptions (field : string) : option (list string) :=
  if String.eqb field "gender" then Some [""; "Male"; "Female"]
  else if String.eqb field "employment_status"
  then Some [""; "Employed"; "Self-employed"; "Unemployed"]
  else if String.eqb field "salary_payment_detected" then Some [""; "Yes"; "No"]
  else if String.eqb field "previous_loan_taken" then Some [""; "Yes"; "No"]
  else if String.eqb field "repayment_status"
  then Some [""; "On Time"; "Late"; "Defaulted"]
  else None.

(** [e.target.value] in the [onChange] of a field's input: one of the
    options of a [<select>], some string for a box. *)
Definition targetValue (field s : string) : Prop :=
  match selectOptions field with
  | Some options => In s options
  | None => True
  end.

(** The change handler each component attaches to its inputs. *)
Definition onChange (c : stepComponent)
    : gmap string value -> string -> value -> gmap string value :=
  match c with
  | UserDemographics => UserDemographics.handleChange
  | FileUpload => FileUpload.handleInputChange
  | LoanHistory => LoanHistory.handleChange
  | UserBehaviour => UserBehaviour.handleChange
  end.

(** The records the page's [formData] cell can hold: [initialFormData]
    (at mount and after [handleNewAssessment]); a change of one of the
    inputs a component shows; the file stored by [handleFileChange]; the
    merge of an extraction response, which may hold any values. *)
Inductive formRecord : gmap string value -> Prop :=
  | Fresh : formRecord initialFormData
  | Entered c formData field s :
      formRecord formData ->
      In field (inputs c formData).*1 ->
      targetValue field s ->
      formRecord (onChange c formData field (VStr s))
  | Chosen formData name :
      formRecord formData ->
      formRecord (<["bank_statement" := VFile name]> formData)
  | Extracted formData name extracted :
      formRecord formData ->
      formRecord (FileUpload.mergeExtracted (VFile name) extracted formData).

(** ** Decimal numerals *)




End Entry.
(* ===================================================================== *)
(** * Properties *)
(* ===================================================================== *)

Import Validation FormData Design.

(** ** Strings and Numbers *)

Lemma trimStart_allWhiteSpace s : allWhiteSpace (trimStart s) = allWhiteSpace s.
Proof.
  induction s as [|c r IH]; simpl; [reflexivity|].
  destruct (isWhiteSpace c) eqn:Hc; simpl; [exact IH | now rewrite Hc].
Qed.

Lemma trimEnd_empty s : isEmptyString (trimEnd s) = allWhiteSpace s.
Proof.
  induction s as [|c r IH]; simpl; [reflexivity|].
  destruct (trimEnd r) eqn:Hr; simpl in *.
  - rewrite <- IH. now destruct (isWhiteSpace c).
  - rewrite <- IH. now rewrite andb_false_r.
Qed.

Lemma trim_empty s : isEmptyString (trim s) = allWhiteSpace s.
Proof. unfold trim. now rewrite trimEnd_empty, trimStart_allWhiteSpace. Qed.


Lemma digitChar_head d r : numericHead (String (digitChar d) r) = true.
Proof.
  destruct d as [|p|p]; try reflexivity.
  do 4 (try (destruct p as [p|p|]; try reflexivity)).
Qed.

Lemma formatDigits_head ds n : numericHead (formatDigits ds n) = true.
Proof.
  unfold formatDigits. destruct ds as [|d0 rest]; [reflexivity|].
  repeat match goal with |- context [if ?b then _ else _] => destruct b end;
    first [apply digitChar_head | reflexivity].
Qed.

Lemma numberToString_head x : numericHead (numberToString x) = true.
Proof.
  destruct x as [s|s| |s m e]; simpl; try reflexivity.
  - now destruct s.
  - destruct s; [reflexivity|].
    unfold positiveToString.
    destruct (shortestDecimal _ _ _ _ _ _) as [c sc].
    destruct (stripZeros _ _ _) as [c' sc'].
    apply formatDigits_head.
Qed.

Lemma numericHead_plain s :
  numericHead s = true -> String.eqb "Yes" s = false /\ isInherited s = false.
Proof.
  destruct s as [|c r]; [discriminate|].
  destruct c as [[] [] [] [] [] [] [] []]; simpl; try discriminate; intros _; split; reflexivity.
Qed.

(** The model of the Number built-ins on some familiar cases. *)
Example parse_and_print :
  numberToString (parseFloatString "0.1") = "0.1" /\
  numberToString (SFadd prec emax (parseFloatString "0.1") (parseFloatString "0.2")) =
    "0.30000000000000004" /\
  numberToString (parseFloatString "  -12.50abc") = "-12.5" /\
  numberToString (parseFloatString "1e21") = "1e+21" /\
  numberToString (parseFloatString ".000000125") = "1.25e-7" /\
  numberToString (parseFloatString "9007199254740993") = "9007199254740992" /\
  numberToString (parseFloatString "1.7976931348623159e308") = "Infinity" /\
  numberToString (parseIntString "42px") = "42" /\
  numberToString (parseIntString "0x1F") = "31" /\
  numberToString (parseIntString "12.9") = "12" /\
  numberToString (parseInt (VNum (parseFloatString "1e21"))) = "1" /\
  parseIntString "" = NaN /\
  parseIntString "abc" = NaN /\
  parseIntString "-0" = S754_zero true /\
  parseFloatString "." = NaN /\
  parseInt VNull = NaN /\
  parseFloat (VFile "statement.pdf") = NaN.
Proof. vm_compute. repeat split. Qed.

(** ** Records *)

Lemma get_insert_eq (m : gmap string value) k v : get (<[k := v]> m) k = v.
Proof. unfold get. now rewrite lookup_insert_eq. Qed.

Lemma get_insert_ne (m : gmap string value) k k' v :
  k <> k' -> get (<[k := v]> m) k' = get m k'.
Proof. intros H. unfold get. now rewrite lookup_insert_ne. Qed.

(** ** The validation engine *)

Lemma isEmpty_emptyValue v : isEmpty v = true <-> emptyValue v.
Proof.
  unfold emptyValue. destruct v as [| |b|x|s|f]; simpl.
  - split; auto.
  - split; auto.
  - split; [discriminate|]. intros [H|[H|[(s & H & _)|H]]]; discriminate.
  - split.
    + destruct x; try discriminate. auto.
    + intros [H|[H|[(s & H & _)|H]]]; try discriminate. now inversion H.
  - rewrite trim_empty. split.
    + intros H. right. right. left. eauto.
    + intros [H|[H|[(s' & H & Hs)|H]]]; try discriminate. now inversion H; subst.
  - split; [discriminate|]. intros [H|[H|[(s & H & _)|H]]]; discriminate.
Qed.

Lemma checkFields_lookup formData fields errs f :
  checkFields formData fields errs !! f =
  if existsb (String.eqb f) fields && isEmpty (get formData f)
  then Some (requiredMessage f)
  else errs !! f.
Proof.
  unfold checkFields. revert errs.
  induction fields as [|g fields IH]; intros errs; simpl; [reflexivity|].
  rewrite IH. destruct (String.eqb_spec f g) as [->|Hne]; simpl.
  - destruct (isEmpty (get formData g)) eqn:Hg.
    + rewrite lookup_insert_eq. now destruct (existsb _ fields).
    + now rewrite andb_false_r.
  - destruct (existsb (String.eqb f) fields && isEmpty (get formData f)); [reflexivity|].
    destruct (isEmpty (get formData g)); [|reflexivity].
    now rewrite lookup_insert_ne.
Qed.

Lemma size_zero_lookup (errs : gmap string string) :
  Nat.eqb (size errs) 0 = true <-> forall f, errs !! f = None.
Proof.
  rewrite Nat.eqb_eq, map_size_empty_iff. apply map_empty.
Qed.

(** [conditions[triggerValue]] on the one rule the registry declares. *)
Lemma lookupCondition_Yes fields v :
  lookupCondition [("Yes", fields)] v =
  if isString v "Yes" then OwnFields fields
  else if isInherited (ToString v) then InheritedMember else NoCondition.
Proof.
  unfold lookupCondition.
  destruct v as [| |b|x|s|f]; cbn [ToString isString assoc]; try reflexivity.
  - now destruct b.
  - destruct (numericHead_plain _ (numberToString_head x)) as [-> ->]. reflexivity.
  - rewrite (String.eqb_sym s). now destruct (String.eqb "Yes" s).
Qed.

Lemma checkFields_app formData fields1 fields2 errs :
  checkFields formData (fields1 ++ fields2) errs =
  checkFields formData fields2 (checkFields formData fields1 errs).
Proof. unfold checkFields. apply foldl_app. Qed.

Lemma checkFields_valid formData fields :
  Nat.eqb (size (checkFields formData fields ∅)) 0 =
  forallb (fun f => negb (isEmpty (get formData f))) fields.
Proof.
  apply Bool.eq_iff_eq_true. rewrite size_zero_lookup, forallb_forall. split.
  - intros H f Hin. specialize (H f). rewrite checkFields_lookup in H.
    assert (He : existsb (String.eqb f) fields = true).
    { apply existsb_exists. exists f. split; [exact Hin | apply String.eqb_refl]. }
    rewrite He in H. simpl in H. now destruct (isEmpty (get formData f)).
  - intros H f. rewrite checkFields_lookup, lookup_empty.
    destruct (existsb (String.eqb f) fields) eqn:He; [|reflexivity].
    apply existsb_exists in He as (g & Hin & Hg).
    apply String.eqb_eq in Hg. subst g.
    apply H in Hin. now destruct (isEmpty (get formData f)).
Qed.

Lemma validationRules_steps step rules :
  validationRules step = Some rules -> step = 0 \/ step = 1 \/ step = 2 \/ step = 3.
Proof.
  destruct step as [|p|p]; [auto| |discriminate].
  do 3 (try (destruct p as [p|p|]; try discriminate)); auto.
Qed.

(** Away from inherited member names, [validateStep] returns, and what it
    returns is the check of exactly the fields required now. *)
Lemma validateStep_returns step rules formData :
  validationRules step = Some rules ->
  inheritedTrigger rules formData = false ->
  validateStep step formData =
  Normal {| isValid := forallb (fun f => negb (isEmpty (get formData f)))
                               (requiredNow rules formData);
            errors := checkFields formData (requiredNow rules formData) ∅ |}.
Proof.
  intros Hrules Hplain.
  destruct (validationRules_steps _ _ Hrules) as [-> | [-> | [-> | ->]]];
    unfold validateStep; rewrite Hrules;
    injection Hrules as <-; unfold requiredNow, inheritedTrigger in *;
    cbn [required conditionalRequired flat_map existsb checkConditional] in *;
    rewrite ?app_nil_r, <- ?checkFields_valid; try reflexivity.
  rewrite lookupCondition_Yes in *.
  destruct (isString (get formData "previous_loan_taken") "Yes").
  - rewrite checkFields_app. reflexivity.
  - destruct (isInherited _); [discriminate|]. reflexivity.
Qed.

Lemma validateStep_errors step rules formData v f :
  validationRules step = Some rules ->
  validateStep step formData = Normal v ->
  errors v !! f =
  if existsb (String.eqb f) (requiredNow rules formData) && isEmpty (get formData f)
  then Some (requiredMessage f) else None.
Proof.
  intros Hrules Hv.
  destruct (inheritedTrigger rules formData) eqn:Hplain.
  - exfalso. destruct (validationRules_steps _ _ Hrules) as [-> | [-> | [-> | ->]]];
      injection Hrules as <-; try discriminate.
    unfold inheritedTrigger in Hplain. unfold validateStep in Hv.
    cbn [validationRules required conditionalRequired existsb checkConditional] in *.
    destruct (lookupCondition _ _); discriminate.
  - rewrite (validateStep_returns _ _ _ Hrules Hplain) in Hv.
    injection Hv as <-. cbn [errors].
    now rewrite checkFields_lookup, lookup_empty.
Qed.

(** The query that drives the required markers lists the fields required
    now. *)
Lemma getRequiredFields_requiredNow step rules formData :
  validationRules step = Some rules ->
  inheritedTrigger rules formData = false ->
  getRequiredFields step formData = Normal (requiredNow rules formData).
Proof.
  intros Hrules Hplain.
  destruct (validationRules_steps _ _ Hrules) as [-> | [-> | [-> | ->]]];
    unfold getRequiredFields; rewrite Hrules;
    injection Hrules as <-; unfold requiredNow, inheritedTrigger in *;
    cbn [required conditionalRequired flat_map existsb pushConditional] in *;
    rewrite ?app_nil_r; try reflexivity.
  rewrite lookupCondition_Yes in *.
  destruct (isString (get formData "previous_loan_taken") "Yes"); [reflexivity|].
  destruct (isInherited _); [discriminate|]. reflexivity.
Qed.

(** For every step of the registry and every record whose trigger fields do
    not name an inherited member, [validateStep] returns, [isValid] holds
    exactly when no field required now is empty, and the error map has an
    entry exactly for the required fields that are empty. *)
Theorem validateStep_isValid_iff step rules formData :
  validationRules step = Some rules ->
  inheritedTrigger rules formData = false ->
  exists v,
    validateStep step formData = Normal v /\
    (isValid v = true <->
     forall f, In f (requiredNow rules formData) -> ~ emptyValue (get formData f)) /\
    (forall f, is_Some (errors v !! f) <->
               In f (requiredNow rules formData) /\ emptyValue (get formData f)).
Proof.
  intros Hrules Hplain. eexists. split; [apply (validateStep_returns _ _ _ Hrules Hplain)|].
  cbn [isValid errors]. split.
  - rewrite forallb_forall. split; intros H f Hin.
    + rewrite <- isEmpty_emptyValue. apply H in Hin. now destruct (isEmpty _).
    + apply H in Hin. rewrite <- isEmpty_emptyValue in Hin. now destruct (isEmpty _).
  - intros f. rewrite checkFields_lookup, lookup_empty, <- isEmpty_emptyValue.
    destruct (existsb (String.eqb f) (requiredNow rules formData)) eqn:He; simpl.
    + apply existsb_exists in He as (g & Hin & Hg). apply String.eqb_eq in Hg. subst g.
      destruct (isEmpty (get formData f)); split; try (intros [x Hx]; discriminate);
        try (intros [_ ?]; discriminate); eauto.
    + split; [intros [x Hx]; discriminate|]. intros [Hin _].
      assert (existsb (String.eqb f) (requiredNow rules formData) = true); [|congruence].
      apply existsb_exists. exists f. split; [exact Hin | apply String.eqb_refl].
Qed.

(** The Number 0, of either sign, is not empty, and no returned error map
    reports a field that holds it. *)
Theorem zero_never_missing step formData v f s :
  get formData f = VNum (S754_zero s) ->
  validateStep step formData = Normal v ->
  isEmpty (get formData f) = false /\ errors v !! f = None.
Proof.
  intros Hf Hv. rewrite Hf. split; [reflexivity|].
  destruct (validationRules step) as [rules|] eqn:Hrules.
  - rewrite (validateStep_errors _ _ _ _ f Hrules Hv), Hf. simpl. now rewrite andb_false_r.
  - unfold validateStep in Hv. now rewrite Hrules in Hv.
Qed.

(** The inherited member names are out of the form's reach, but not out of
    the function's: on the loan-history step a record whose
    [previous_loan_taken] holds the string ["constructor"] makes
    [conditions[triggerValue]] find the member every object inherits, and
    the call throws a [TypeError]. *)
Lemma inherited_trigger_throws :
  validateStep 2 (<["previous_loan_taken" := VStr "constructor"]> initialFormData) =
  Throw (TypeError "conditions[triggerValue].forEach is not a function").
Proof. reflexivity. Qed.

Import Entry.

(** [previous_loan_taken] is written by the select of [LoanHistory] alone:
    in every record of the form it holds one of the three options. *)
Lemma formRecord_previous_loan_taken formData :
  formRecord formData ->
  get formData "previous_loan_taken" = VStr "" \/
  get formData "previous_loan_taken" = VStr "Yes" \/
  get formData "previous_loan_taken" = VStr "No".
Proof.
  induction 1 as [|c fd field s Hfd IH Hin Hval|fd name Hfd IH|fd name extracted Hfd IH].
  - left. reflexivity.
  - destruct c; cbn [Views.inputs fmap list_fmap fst] in Hin.
    + repeat (destruct Hin as [<-|Hin];
        [unfold onChange, UserDemographics.handleChange;
         rewrite get_insert_ne by discriminate; exact IH|]).
      destruct Hin.
    + repeat (destruct Hin as [<-|Hin];
        [unfold onChange, FileUpload.handleInputChange;
         rewrite get_insert_ne by discriminate; exact IH|]).
      destruct Hin.
    + destruct Hin as [<-|Hin].
      * destruct Hval as [<-|[<-|[<-|[]]]]; unfold onChange, LoanHistory.handleChange;
          cbn [String.eqb Ascii.eqb Bool.eqb isString andb].
        all: rewrite ?get_insert_ne by discriminate.
        all: rewrite get_insert_eq; auto.
      * destruct (isString (get fd "previous_loan_taken") "Yes"); [|destruct Hin].
        simpl in Hin.
        repeat (destruct Hin as [<-|Hin];
          [unfold onChange, LoanHistory.handleChange;
           cbn [String.eqb Ascii.eqb Bool.eqb andb];
           rewrite get_insert_ne by discriminate; exact IH|]).
        destruct Hin.
    + repeat (destruct Hin as [<-|Hin];
        [unfold onChange, UserBehaviour.handleChange;
         rewrite get_insert_ne by discriminate; exact IH|]).
      destruct Hin.
  - rewrite get_insert_ne by discriminate. exact IH.
  - unfold FileUpload.mergeExtracted, FileUpload.financialFields. cbn [foldl].
    rewrite !get_insert_ne by discriminate. exact IH.
Qed.

(** No record of the form names an inherited member in a trigger field. *)
Lemma formRecord_plain step rules formData :
  validationRules step = Some rules ->
  formRecord formData ->
  inheritedTrigger rules formData = false.
Proof.
  intros Hrules Hfd.
  destruct (validationRules_steps _ _ Hrules) as [-> | [-> | [-> | ->]]];
    injection Hrules as <-; try reflexivity.
  unfold inheritedTrigger. cbn [conditionalRequired existsb].
  destruct (formRecord_previous_loan_taken _ Hfd) as [-> | [-> | ->]]; reflexivity.
Qed.

(** C1. For every step index with a rule entry and every record the form
    can hold, [validateStep] returns; [isValid] is true exactly when every
    field of the step's required set, together with the additional fields
    of every conditional rule whose trigger field holds its trigger value,
    is non-empty, where empty means [null], [undefined], a string that is
    empty or white space only, or [NaN]; the error map has an entry exactly
    for the required fields that are empty; and a field holding the Number
    0, of either sign, is not empty and is not reported. *)
Theorem C1_validateStep_valid_iff_required_filled step rules formData :
  validationRules step = Some rules ->
  formRecord formData ->
  exists v,
    validateStep step formData = Normal v /\
    (isValid v = true <->
     forall f, In f (requiredNow rules formData) -> ~ emptyValue (get formData f)) /\
    (forall f, is_Some (errors v !! f) <->
               In f (requiredNow rules formData) /\ emptyValue (get formData f)) /\
    (forall f s, get formData f = VNum (S754_zero s) ->
                 ~ emptyValue (get formData f) /\ errors v !! f = None).
Proof.
  intros Hrules Hfd.
  destruct (validateStep_isValid_iff step rules formData Hrules
              (formRecord_plain _ _ _ Hrules Hfd)) as (v & Hv & Hvalid & Herrors).
  exists v. split; [exact Hv|]. split; [exact Hvalid|]. split; [exact Herrors|].
  intros f s Hf.
  destruct (zero_never_missing step formData v f s Hf Hv) as [Hne Hnone].
  split; [|exact Hnone].
  intros He. apply isEmpty_emptyValue in He. congruence.
Qed.

(** The extraction finds no debit at all: the record holds the Number 0,
    and the financial step, invalid for the fields left undefined, does not
    report it. *)
Lemma C1_witness :
  let record :=
    FileUpload.mergeExtracted (VFile "statement.pdf")
      (<["highest_debit_amount" := VNum zero]> ∅) initialFormData in
  exists v, validateStep 1 record = Normal v /\
            is_Some (errors v !! "highest_credit_amount") /\
            errors v !! "highest_debit_amount" = None.
Proof.
  intros record.
  destruct (C1_validateStep_valid_iff_required_filled 1 _ record eq_refl)
    as (v & Hv & _ & Herrors & Hzero).
  - apply Extracted, Fresh.
  - exists v. split; [exact Hv|]. split.
    + apply Herrors. split; [simpl; auto 10|]. right. left. reflexivity.
    + apply (Hzero "highest_debit_amount" false). reflexivity.
Defined.

(** C2. When [previous_loan_taken] is not the string ["Yes"], whatever
    [validateStep] returns on the loan-history step has no error for
    [previous_loan_amount], [repayment_status] or [missed_payment_count];
    its outcome does not depend on what these three fields hold; and it
    does return unless the trigger names an inherited member (it returns
    for ["No"], for the empty string and for every value that is not a
    string). *)
Theorem C2_conditional_fields_not_required (formData : gmap string value) :
  isString (get formData "previous_loan_taken") "Yes" = false ->
  (forall v, validateStep 2 formData = Normal v ->
             errors v !! "previous_loan_amount" = None /\
             errors v !! "repayment_status" = None /\
             errors v !! "missed_payment_count" = None) /\
  (forall a b c,
     validateStep 2 (<["previous_loan_amount" := a]>
                       (<["repayment_status" := b]>
                          (<["missed_payment_count" := c]> formData))) =
     validateStep 2 formData) /\
  (isInherited (ToString (get formData "previous_loan_taken")) = false ->
   exists v, validateStep 2 formData = Normal v).
Proof.
  intros Hno. split; [|split].
  - intros v Hv.
    assert (Hreq : requiredNow
                     {| required := ["previous_loan_taken"];
                        conditionalRequired :=
                          Some [("previous_loan_taken",
                                 [("Yes", ["previous_loan_amount"; "repayment_status";
                                           "missed_payment_count"])])];
                        optional := [] |} formData = ["previous_loan_taken"]).
    { unfold requiredNow. cbn [required conditionalRequired flat_map].
      now rewrite Hno. }
    repeat split;
      rewrite (validateStep_errors 2 _ formData v _ eq_refl Hv), Hreq; reflexivity.
  - intros a b c. unfold validateStep.
    cbn [validationRules required conditionalRequired checkConditional checkFields foldl].
    rewrite !lookupCondition_Yes.
    rewrite !get_insert_ne by discriminate. rewrite Hno.
    now destruct (isInherited _).
  - intros Hplain. eexists. apply (validateStep_returns 2 _ formData eq_refl).
    unfold inheritedTrigger. cbn [conditionalRequired existsb].
    rewrite lookupCondition_Yes, Hno, Hplain. reflexivity.
Qed.

Lemma C2_witness :
  let formData :=
    <["previous_loan_taken" := VStr "No"]>
      (<["repayment_status" := VStr "   "]> initialFormData) in
  exists v, validateStep 2 formData = Normal v /\
            errors v !! "previous_loan_amount" = None /\
            errors v !! "repayment_status" = None /\
            errors v !! "missed_payment_count" = None.
Proof.
  intros formData.
  destruct (C2_conditional_fields_not_required formData) as (Hnone & _ & Hret).
  - reflexivity.
  - destruct Hret as [v Hv].
    + reflexivity.
    + exists v. split; [exact Hv | exact (Hnone v Hv)].
Defined.

(** ** Normalisation at submission *)

Import CreditForm.

Lemma lookup_list_to_map_assoc {A} (l : list (string * A)) k :
  (list_to_map l : gmap string A) !! k = assoc k l.
Proof.
  induction l as [|[k' a] l IH]; simpl; [apply lookup_empty|].
  destruct (String.eqb_spec k' k) as [->|Hne].
  - apply lookup_insert_eq.
  - rewrite lookup_insert_ne by exact Hne. exact IH.
Qed.

Lemma numberOr0 x :
  exists y, orElse (VNum x) (VNum zero) = VNum y /\ isNaN y = false /\
            (isNaN x = true -> y = zero).
Proof.
  unfold orElse. destruct x as [s|s| |s m e]; simpl.
  - exists zero. repeat split.
  - exists (S754_infinity s). repeat split. discriminate.
  - exists zero. repeat split.
  - exists (S754_finite s m e). repeat split. discriminate.
Qed.




Lemma predictionData_numeric formData f kind :
  In (f, kind) numericFields ->
  predictionData formData !! f =
  Some (orElse (VNum (parse kind (get formData f))) (VNum zero)).
Proof.
  intros Hin. unfold predictionData. rewrite lookup_list_to_map_assoc.
  unfold numericFields in Hin.
  repeat (destruct Hin as [Heq|Hin]; [injection Heq as <- <-; reflexivity|]).
  destruct Hin.
Qed.

Lemma predictionData_enumerated formData f fallback :
  In (f, fallback) enumeratedFields ->
  predictionData formData !! f = Some (orElse (get formData f) (VStr fallback)).
Proof.
  intros Hin. unfold predictionData. rewrite lookup_list_to_map_assoc.
  unfold enumeratedFields in Hin.
  repeat (destruct Hin as [Heq|Hin]; [injection Heq as <- <-; reflexivity|]).
  destruct Hin.
Qed.



(** *** Decimal numerals are read as the Numbers nearest to them *)















(** ** Extraction merge *)

(** The three plain change handlers write the named field and nothing
    else. *)
Lemma plain_handlers_write_one_field formData field v :
  UserDemographics.handleChange formData field v = <[field := v]> formData /\
  UserBehaviour.handleChange formData field v = <[field := v]> formData /\
  FileUpload.handleInputChange formData field v = <[field := v]> formData /\
  get (<[field := v]> formData) field = v /\
  (forall k, k <> field -> get (<[field := v]> formData) k = get formData k).
Proof.
  repeat split; [apply get_insert_eq|]. intros k Hk. apply get_insert_ne. congruence.
Qed.

(** A successful extraction overwrites the nine financial fields with what
    the service extracted, keeps the chosen file, and leaves the rest. *)
Lemma mergeExtracted_get file extracted prev k :
  get (FileUpload.mergeExtracted file extracted prev) k =
  if existsb (String.eqb k) FileUpload.financialFields then get extracted k
  else if String.eqb k "bank_statement" then file
  else get prev k.
Proof.
  unfold FileUpload.mergeExtracted, FileUpload.financialFields. cbn [foldl existsb].
  repeat match goal with
  | |- context [String.eqb k ?f] =>
      destruct (String.eqb_spec k f) as [->|];
        [ rewrite ?get_insert_ne by discriminate; now rewrite get_insert_eq
        | rewrite (get_insert_ne _ f k) by congruence ]
  end.
  reflexivity.
Qed.

(** C7. When the extraction fails, the settling of [handleFileChange]
    leaves the record exactly as it was. Over the whole attempt, from the
    choice of the file on, each of the nine financial fields holds what it
    held before, the only field written being [bank_statement], which the
    upload itself sets to the chosen file. The failure reaches the
    component as data: [extractionError] holds the message of the failure
    (the fixed advice when that message is empty), [isExtracting] is back
    to [false], and nothing is thrown. *)
Theorem C7_failed_extraction_keeps_record (st : FileUpload.state) (file : string) (e : exn) :
  FileUpload.formData (FileUpload.handleFileChangeSettled (VFile file) (Rejected e) st) =
    FileUpload.formData st /\
  Forall (fun f => FileUpload.formData (FileUpload.uploadAttempt file (Rejected e) st) !! f =
                   FileUpload.formData st !! f)
         FileUpload.financialFields /\
  FileUpload.formData (FileUpload.uploadAttempt file (Rejected e) st) =
    <["bank_statement" := VFile file]> (FileUpload.formData st) /\
  FileUpload.extractionError (FileUpload.uploadAttempt file (Rejected e) st) =
    Some (messageOr e "Failed to extract data. Please fill manually.") /\
  FileUpload.isExtracting (FileUpload.uploadAttempt file (Rejected e) st) = false /\
  FileUpload.extractionSuccess (FileUpload.uploadAttempt file (Rejected e) st) = false.
Proof.
  split; [reflexivity|]. split; [|repeat split].
  unfold FileUpload.uploadAttempt, FileUpload.financialFields. simpl.
  repeat constructor; now rewrite lookup_insert_ne.
Qed.

(** ** Loan history *)

(** C10. Setting [previous_loan_taken] to ["No"] writes four fields at
    once: the trigger itself, [previous_loan_amount] to the empty string,
    [repayment_status] to ["N/A"] and [missed_payment_count] to ["0"]; every
    other field keeps its value. The three values written are not the three
    defaults of the initial record, which are empty strings:
    [repayment_status] and [missed_payment_count] differ from their
    defaults, [previous_loan_amount] coincides with its own. Any other
    change writes the named field and nothing else. *)
Theorem C10_loan_history_reset (formData : gmap string value) :
  let reset := LoanHistory.handleChange formData "previous_loan_taken" (VStr "No") in
  reset !! "previous_loan_taken" = Some (VStr "No") /\
  reset !! "previous_loan_amount" = Some (VStr "") /\
  reset !! "repayment_status" = Some (VStr "N/A") /\
  reset !! "missed_payment_count" = Some (VStr "0") /\
  (forall k, ~ In k ["previous_loan_taken"; "previous_loan_amount";
                     "repayment_status"; "missed_payment_count"] ->
             reset !! k = formData !! k) /\
  (initialFormData !! "previous_loan_amount",
   initialFormData !! "repayment_status",
   initialFormData !! "missed_payment_count") =
    (Some (VStr ""), Some (VStr ""), Some (VStr "")) /\
  (reset !! "previous_loan_amount", reset !! "repayment_status",
   reset !! "missed_payment_count") <>
    (initialFormData !! "previous_loan_amount", initialFormData !! "repayment_status",
     initialFormData !! "missed_payment_count") /\
  reset !! "repayment_status" <> initialFormData !! "repayment_status" /\
  reset !! "missed_payment_count" <> initialFormData !! "missed_payment_count" /\
  reset !! "previous_loan_amount" = initialFormData !! "previous_loan_amount" /\
  (forall field v,
     String.eqb field "previous_loan_taken" && isString v "No" = false ->
     LoanHistory.handleChange formData field v = <[field := v]> formData /\
     LoanHistory.handleChange formData field v !! field = Some v /\
     forall k, k <> field -> LoanHistory.handleChange formData field v !! k = formData !! k).
Proof.
  intros reset.
  assert (H1 : reset !! "previous_loan_taken" = Some (VStr "No")).
  { subst reset. unfold LoanHistory.handleChange. simpl.
    rewrite !lookup_insert_ne by discriminate. apply lookup_insert_eq. }
  assert (H2 : reset !! "previous_loan_amount" = Some (VStr "")).
  { subst reset. unfold LoanHistory.handleChange. simpl.
    rewrite !lookup_insert_ne by discriminate. apply lookup_insert_eq. }
  assert (H3 : reset !! "repayment_status" = Some (VStr "N/A")).
  { subst reset. unfold LoanHistory.handleChange. simpl.
    rewrite !lookup_insert_ne by discriminate. apply lookup_insert_eq. }
  assert (H4 : reset !! "missed_payment_count" = Some (VStr "0")).
  { subst reset. unfold LoanHistory.handleChange. simpl. apply lookup_insert_eq. }
  rewrite H1, H2, H3, H4.
  repeat split; try reflexivity; try discriminate.
  - intros k Hk. subst reset. unfold LoanHistory.handleChange. simpl.
    rewrite !lookup_insert_ne; [reflexivity| | | |];
      intros <-; apply Hk; simpl; auto.
  - unfold LoanHistory.handleChange. now rewrite H.
  - unfold LoanHistory.handleChange. rewrite H. apply lookup_insert_eq.
  - intros k Hk. unfold LoanHistory.handleChange. rewrite H. now apply lookup_insert_ne.
Qed.

Lemma C10_witness :
  let formData :=
    <["repayment_status" := VStr "Late"]>
      (<["previous_loan_taken" := VStr "Yes"]> initialFormData) in
  LoanHistory.handleChange formData "previous_loan_taken" (VStr "No") !! "age" =
    formData !! "age" /\
  LoanHistory.handleChange formData "repayment_status" (VStr "On Time") =
    <["repayment_status" := VStr "On Time"]> formData /\
  LoanHistory.handleChange formData "previous_loan_taken" (VStr "Yes") !! "repayment_status" =
    Some (VStr "Late").
Proof.
  intros formData.
  destruct (C10_loan_history_reset formData)
    as (_ & _ & _ & _ & Hother & _ & _ & _ & _ & _ & Hplain).
  split; [|split].
  - apply Hother. simpl. intros [H|[H|[H|[H|[]]]]]; discriminate.
  - apply (Hplain "repayment_status" (VStr "On Time")). reflexivity.
  - destruct (Hplain "previous_loan_taken" (VStr "Yes")) as (_ & _ & Hk); [reflexivity|].
    rewrite Hk by discriminate. reflexivity.
Defined.

(** ** The wizard *)

Lemma feedbackAfterPredict_nil : feedbackAfterPredict [].
Proof. intros t1 data t2 H. now destruct t1. Qed.

Lemma feedbackAfterPredict_snoc t x :
  feedbackAfterPredict t ->
  (forall data, x <> CallFeedback data) ->
  feedbackAfterPredict (t ++ [x]).
Proof.
  intros Ht Hx t1 data t2 Heq.
  destruct t2 as [|y t2 _] using rev_ind.
  - apply app_inj_tail in Heq as [_ ->]. now destruct (Hx data).
  - change (t1 ++ CallFeedback data :: t2 ++ [y])%list
      with (t1 ++ (CallFeedback data :: t2) ++ [y])%list in Heq.
    rewrite app_assoc in Heq. apply app_inj_tail in Heq as [-> _].
    now apply (Ht t1 data t2).
Qed.

Lemma feedbackAfterPredict_call t response data :
  feedbackAfterPredict t ->
  feedbackAfterPredict (t ++ [PredictReturned response; CallFeedback data]).
Proof.
  intros Ht t1 data' t2 Heq.
  change (t ++ [PredictReturned response; CallFeedback data])%list
    with (t ++ [PredictReturned response] ++ [CallFeedback data])%list in Heq.
  rewrite app_assoc in Heq.
  destruct t2 as [|y t2 _] using rev_ind.
  - apply app_inj_tail in Heq as [<- _]. eauto.
  - change (t1 ++ CallFeedback data' :: t2 ++ [y])%list
      with (t1 ++ (CallFeedback data' :: t2) ++ [y])%list in Heq.
    rewrite app_assoc in Heq. apply app_inj_tail in Heq as [Heq _].
    apply (feedbackAfterPredict_snoc t (PredictReturned response) Ht) in Heq;
      [exact Heq | discriminate].
Qed.

(** The phase of a session reads four cells of the page only. *)
Lemma phase_withUi s st :
  phase s ->
  isSubmitting st = isSubmitting (ui s) ->
  showResults st = showResults (ui s) ->
  results st = results (ui s) ->
  submitError st = submitError (ui s) ->
  phase (withUi st s).
Proof.
  intros [Hi Hs Hr|fd t0 Hi Hs Hr He Ht|fd response t0 Hi Hs Hr He Hres Ht] E1 E2 E3 E4.
  - apply Idle; simpl; rewrite ?E1, ?E2, ?E3, ?E4; auto.
  - apply (Predicting _ fd t0); simpl; rewrite ?E1, ?E2, ?E3, ?E4; auto.
  - apply (AwaitingFeedback _ fd response t0); simpl; rewrite ?E1, ?E2, ?E3, ?E4; auto.
Qed.

Lemma handleNext_cells st :
  isSubmitting (handleNext st) = isSubmitting st /\
  showResults (handleNext st) = showResults st /\
  results (handleNext st) = results st /\
  submitError (handleNext st) = submitError st /\
  formData (handleNext st) = formData st.
Proof.
  unfold handleNext. destruct (validateStep _ _) as [v|e]; [|auto].
  destruct (isValid v); simpl; [|auto].
  destruct (currentStep st <? lastStep); simpl; auto.
Qed.

Lemma handleNext_range st :
  0 <= currentStep st <= lastStep -> 0 <= currentStep (handleNext st) <= lastStep.
Proof.
  unfold handleNext. destruct (validateStep _ _) as [v|e]; [|auto].
  destruct (isValid v); simpl; [|auto].
  destruct (Z.ltb_spec (currentStep st) lastStep); simpl; lia.
Qed.

Lemma handlePrevious_range st :
  0 <= currentStep st <= lastStep -> 0 <= currentStep (handlePrevious st) <= lastStep.
Proof.
  unfold handlePrevious. simpl.
  destruct (Z.ltb_spec 0 (currentStep st)); simpl; lia.
Qed.

Lemma handlePrevious_cells st :
  isSubmitting (handlePrevious st) = isSubmitting st /\
  showResults (handlePrevious st) = showResults st /\
  results (handlePrevious st) = results st /\
  submitError (handlePrevious st) = submitError st /\
  formData (handlePrevious st) = formData st.
Proof.
  unfold handlePrevious. simpl. destruct (0 <? currentStep st); simpl; auto.
Qed.

Lemma render_results st :
  render st = ResultsView <-> showResults st = true /\ is_Some (results st).
Proof.
  unfold render. destruct (showResults st); simpl.
  - destruct (bool_decide_reflect (is_Some (results st))) as [H|H].
    + split; auto.
    + split; [discriminate|]. intros [_ H']. contradiction.
  - split; [discriminate|]. intros [H _]. discriminate.
Qed.

Lemma invariant_initial : invariant initialSession.
Proof.
  split; [|split].
  - unfold stepInRange. simpl. unfold lastStep. simpl. lia.
  - apply Idle; simpl; auto. discriminate.
  - apply feedbackAfterPredict_nil.
Qed.

Lemma render_form_idle s :
  phase s -> isSubmitting (ui s) = false -> render (ui s) = FormView ->
  inflight s = [] /\ showResults (ui s) = false.
Proof.
  intros [Hi Hs Hr|fd t0 Hi Hs Hr He Ht|fd response t0 Hi Hs Hr He Hres Ht] Hsub Hview;
    try congruence.
  split; [exact Hi|].
  destruct (showResults (ui s)) eqn:Hshow; [|reflexivity].
  destruct (Hr eq_refl) as [Hres _].
  assert (render (ui s) = ResultsView) by now apply render_results.
  congruence.
Qed.

Lemma submitEnabled_spec st :
  submitEnabled st = true ->
  render st = FormView /\ currentStep st = lastStep /\ isSubmitting st = false.
Proof.
  unfold submitEnabled. destruct (render st); [discriminate|].
  intros [H1 H2]%andb_true_iff. apply Z.eqb_eq in H1. apply negb_true_iff in H2. auto.
Qed.

(** Every event keeps the invariant. *)
Lemma invariant_dispatch e s : invariant s -> invariant (dispatch e s).
Proof.
  intros (Hrange & Hphase & Htrace). unfold invariant, stepInRange in *.
  destruct e as [| | | |r|i o]; simpl.
  - (* Next *)
    destruct (nextShown (ui s)); [|auto].
    destruct (handleNext_cells (ui s)) as (E1 & E2 & E3 & E4 & _).
    split; [|split]; simpl; auto using handleNext_range, phase_withUi.
  - (* Previous *)
    destruct (previousEnabled (ui s)); [|auto].
    destruct (handlePrevious_cells (ui s)) as (E1 & E2 & E3 & E4 & _).
    split; [|split]; simpl; auto using handlePrevious_range, phase_withUi.
  - (* Submit *)
    destruct (submitEnabled (ui s)) eqn:Hen; [|auto].
    apply submitEnabled_spec in Hen as (Hview & Hlast & Hsub).
    destruct (render_form_idle s Hphase Hsub Hview) as [Hidle Hshow].
    unfold handleSubmit.
    destruct (validateStep _ _) as [v|err]; simpl.
    + destruct (isValid v); simpl.
      * split; [exact Hrange|]. split.
        -- apply (Predicting _ (formData (ui s)) (trace s)); simpl; auto.
           now rewrite Hidle.
        -- apply feedbackAfterPredict_snoc; [exact Htrace | discriminate].
      * rewrite !app_nil_r. split; [exact Hrange|]. split; [|exact Htrace].
        apply (phase_withUi s (setStepErrors (errors v) (ui s))) in Hphase; auto.
    + rewrite !app_nil_r. destruct s; auto.
  - (* New assessment *)
    destruct (newAssessmentShown (ui s)) eqn:Hnew; [|auto].
    unfold newAssessmentShown in Hnew.
    destruct (render (ui s)) eqn:Hview; [|discriminate].
    apply render_results in Hview as [Hshow Hres].
    destruct Hphase as [Hi Hs Hr|fd t0 Hi Hs Hr He Ht|fd response t0 Hi Hs Hr He Hres' Ht];
      try congruence.
    split; [|split]; simpl; auto.
    + unfold lastStep. simpl. lia.
    + apply Idle; simpl; auto. discriminate.
  - (* A step component writes the record *)
    split; [|split]; simpl; auto. now apply phase_withUi.
  - (* A service call settles *)
    destruct Hphase as [Hi Hs Hr|fd t0 Hi Hs Hr He Ht|fd response t0 Hi Hs Hr He Hres Ht].
    + rewrite Hi. simpl. rewrite ?lookup_nil.
      split; [|split]; auto. now apply Idle.
    + rewrite Hi. destruct i as [|i]; simpl.
      * destruct o as [response|err]; simpl.
        -- split; [exact Hrange|]. split.
           ++ apply (AwaitingFeedback _ fd response (trace s)); simpl; auto.
           ++ now apply feedbackAfterPredict_call.
        -- split; [exact Hrange|]. split.
           ++ apply Idle; simpl; auto. congruence.
           ++ apply feedbackAfterPredict_snoc; [exact Htrace | discriminate].
      * rewrite ?lookup_nil. split; [|split]; auto.
        now apply (Predicting _ fd t0).
    + rewrite Hi. destruct i as [|i]; simpl.
      * destruct o as [feedbackResponse|err]; simpl.
        -- split; [exact Hrange|]. split.
           ++ apply Idle; simpl; auto; rewrite ?Hres; eauto.
           ++ apply feedbackAfterPredict_snoc; [exact Htrace | discriminate].
        -- split; [exact Hrange|]. split.
           ++ apply Idle; simpl; auto; rewrite ?Hres; eauto.
           ++ apply feedbackAfterPredict_snoc; [exact Htrace | discriminate].
      * rewrite ?lookup_nil. split; [|split]; auto.
        now apply (AwaitingFeedback _ fd response t0).
Qed.

Lemma invariant_foldl events s :
  invariant s -> invariant (foldl (fun s e => dispatch e s) s events).
Proof.
  revert s. induction events as [|e events IH]; intros s Hs; simpl; [exact Hs|].
  apply IH. now apply invariant_dispatch.
Qed.

Lemma invariant_run events : invariant (run events).
Proof. apply invariant_foldl, invariant_initial. Qed.

Import Scenario.

(** What is in flight decides the phase. *)
Lemma phase_awaiting_feedback s i data :
  phase s -> inflight s !! i = Some (AwaitFeedback data) ->
  exists fd response t0,
    i = 0%nat /\ data = feedbackData fd response /\
    inflight s = [AwaitFeedback data] /\
    showResults (ui s) = false /\ submitError (ui s) = None /\
    results (ui s) = Some (scoringOf response) /\
    trace s = (t0 ++ [PredictReturned response; CallFeedback data])%list.
Proof.
  intros [Hi Hs Hr|fd t0 Hi Hs Hr He Ht|fd response t0 Hi Hs Hr He Hres Ht] Hlook;
    rewrite Hi in Hlook.
  - discriminate.
  - destruct i; discriminate.
  - destruct i as [|i]; [|discriminate]. injection Hlook as <-.
    exists fd, response, t0. auto 10.
Qed.

Lemma phase_predicting s i fd data :
  phase s -> inflight s !! i = Some (AwaitPredict fd data) ->
  exists t0,
    i = 0%nat /\ data = predictionData fd /\
    inflight s = [AwaitPredict fd data] /\
    showResults (ui s) = false /\
    trace s = (t0 ++ [CallPredict data])%list.
Proof.
  intros [Hi Hs Hr|fd' t0 Hi Hs Hr He Ht|fd' response t0 Hi Hs Hr He Hres Ht] Hlook;
    rewrite Hi in Hlook.
  - discriminate.
  - destruct i as [|i]; [|discriminate]. injection Hlook as <- <-.
    exists t0. auto 10.
  - destruct i; discriminate.
Qed.

(** One whole submission whose prediction returns and whose feedback call
    fails. *)
Lemma submission_feedback_fails predict getFeedback st v response e :
  validateStep (currentStep st) (formData st) = Normal v ->
  isValid v = true ->
  predict (predictionData (formData st)) = Resolved response ->
  getFeedback (feedbackData (formData st) response) = Rejected e ->
  submission predict getFeedback st =
  (setIsSubmitting false
     (setShowResults true
        (setFeedback VNull
           (setResults (Some (scoringOf response))
              (setStepErrors ∅ (setSubmitError None (setIsSubmitting true st)))))),
   [CallPredict (predictionData (formData st));
    PredictReturned response;
    CallFeedback (feedbackData (formData st) response);
    FeedbackFailed e]).
Proof.
  intros Hv Hvalid Hp Hf. unfold submission, handleSubmit.
  rewrite Hv, Hvalid. simpl. rewrite Hp. simpl. rewrite Hf. reflexivity.
Qed.

(** One whole submission whose prediction fails. *)
Lemma submission_predict_fails predict getFeedback st v e :
  validateStep (currentStep st) (formData st) = Normal v ->
  isValid v = true ->
  predict (predictionData (formData st)) = Rejected e ->
  submission predict getFeedback st =
  (setIsSubmitting false
     (setSubmitError (Some (messageOr e "Failed to get prediction. Please try again."))
        (setStepErrors ∅ (setSubmitError None (setIsSubmitting true st)))),
   [CallPredict (predictionData (formData st)); PredictFailed e]).
Proof.
  intros Hv Hvalid Hp. unfold submission, handleSubmit.
  rewrite Hv, Hvalid. simpl. rewrite Hp. reflexivity.
Qed.

(** C4. In every session, when a submission is waiting for the feedback
    (so its prediction has returned: the trace ends with that return and
    with the feedback call made from it) and the feedback call fails, the
    page ends on the result card: [results] holds the four scoring fields
    of the prediction's response as they were returned, [feedback] is
    [null], [submitError] is [null], and nothing is left in flight. The
    failure leaves one entry in the trace and nothing else. *)
Theorem C4_feedback_failure_absorbed
    (events : list event) (i : nat) (data : gmap string value) (e : exn) :
  inflight (run events) !! i = Some (AwaitFeedback data) ->
  exists fd response t0,
    trace (run events) =
      (t0 ++ [PredictReturned response; CallFeedback data])%list /\
    data = feedbackData fd response /\
    results (ui (dispatch (Settles i (Rejected e)) (run events))) =
      Some {| loan_defaulted := get response "loan_defaulted";
              credit_score_generated := get response "credit_score";
              risk_category := get response "risk_category";
              default_probability := get response "default_probability" |} /\
    feedback (ui (dispatch (Settles i (Rejected e)) (run events))) = VNull /\
    render (ui (dispatch (Settles i (Rejected e)) (run events))) = ResultsView /\
    submitError (ui (dispatch (Settles i (Rejected e)) (run events))) = None /\
    isSubmitting (ui (dispatch (Settles i (Rejected e)) (run events))) = false /\
    inflight (dispatch (Settles i (Rejected e)) (run events)) = [] /\
    trace (dispatch (Settles i (Rejected e)) (run events)) =
      (trace (run events) ++ [FeedbackFailed e])%list.
Proof.
  intros Hlook.
  destruct (invariant_run events) as (_ & Hphase & _).
  destruct (phase_awaiting_feedback _ _ _ Hphase Hlook)
    as (fd & response & t0 & -> & Hdata & Hin & Hshow & Herr & Hres & Ht).
  exists fd, response, t0.
  unfold dispatch. rewrite Hlook. simpl. rewrite Hin. simpl.
  repeat split; auto.
  apply render_results. simpl. rewrite Hres. eauto.
Qed.

Lemma C4_witness :
  exists response,
    In (PredictReturned response) (trace (run toFeedback)) /\
    results (ui (run toResults)) = Some (scoringOf response) /\
    feedback (ui (run toResults)) = VNull /\
    render (ui (run toResults)) = ResultsView /\
    submitError (ui (run toResults)) = None.
Proof.
  destruct (C4_feedback_failure_absorbed toFeedback 0
              (feedbackData applicant predicted) unreachable)
    as (fd & response & t0 & Ht & _ & Hres & Hfb & Hview & Herr & _).
  - vm_compute. reflexivity.
  - exists response. split.
    + rewrite Ht. apply in_or_app. right. now left.
    + change (run toResults)
        with (dispatch (Settles 0 (Rejected unreachable)) (run toFeedback)).
      auto.
Defined.

(** C5. In the trace of every session, each call of the feedback service
    comes right after a prediction that returned. And when the prediction
    of the submission in flight fails, the pipeline stops there: the trace
    gains the failure and no feedback call, nothing is left in flight, the
    page stays on the form with [submitError] holding the message of the
    failure (the fixed advice when that message is empty), and [results]
    is untouched. *)
Theorem C5_feedback_only_after_prediction (events : list event) :
  (forall t1 data t2,
     trace (run events) = (t1 ++ CallFeedback data :: t2)%list ->
     exists t0 response, t1 = (t0 ++ [PredictReturned response])%list) /\
  (forall i fd data e,
     inflight (run events) !! i = Some (AwaitPredict fd data) ->
     trace (dispatch (Settles i (Rejected e)) (run events)) =
       (trace (run events) ++ [PredictFailed e])%list /\
     inflight (dispatch (Settles i (Rejected e)) (run events)) = [] /\
     submitError (ui (dispatch (Settles i (Rejected e)) (run events))) =
       Some (messageOr e "Failed to get prediction. Please try again.") /\
     render (ui (dispatch (Settles i (Rejected e)) (run events))) = FormView /\
     isSubmitting (ui (dispatch (Settles i (Rejected e)) (run events))) = false /\
     results (ui (dispatch (Settles i (Rejected e)) (run events))) =
       results (ui (run events))).
Proof.
  destruct (invariant_run events) as (_ & Hphase & Htrace).
  split; [exact Htrace|].
  intros i fd data e Hlook.
  destruct (phase_predicting _ _ _ _ Hphase Hlook) as (t0 & -> & Hdata & Hin & Hshow & Ht).
  unfold dispatch. rewrite Hlook. simpl. rewrite Hin. simpl.
  repeat split; auto.
  unfold render. simpl. now rewrite Hshow.
Qed.

Lemma C5_witness :
  trace (run (toSubmit ++ [Settles 0 (Rejected unreachable)])) =
    [CallPredict (predictionData applicant); PredictFailed unreachable] /\
  submitError (ui (run (toSubmit ++ [Settles 0 (Rejected unreachable)]))) =
    Some "Failed to fetch" /\
  render (ui (run (toSubmit ++ [Settles 0 (Rejected unreachable)]))) = FormView.
Proof.
  destruct (C5_feedback_only_after_prediction toSubmit) as [_ Hfail].
  destruct (Hfail 0%nat applicant (predictionData applicant) unreachable)
    as (Ht & _ & Herr & Hview & _).
  - vm_compute. reflexivity.
  - change (run (toSubmit ++ [Settles 0 (Rejected unreachable)]))
      with (dispatch (Settles 0 (Rejected unreachable)) (run toSubmit)).
    rewrite Ht, Herr, Hview. repeat split.
Defined.

(** C6. In every session, [isSubmitting] is set exactly while a submission
    is in flight, at most one submission is in flight, and while one is, a
    click on Submit changes nothing: not the page, not what is in flight,
    not the trace of calls. *)
Theorem C6_submit_is_single_flight (events : list event) :
  (isSubmitting (ui (run events)) = true <-> inflight (run events) <> []) /\
  (length (inflight (run events)) <= 1)%nat /\
  (inflight (run events) <> [] ->
   dispatch ClickSubmit (run events) = run events).
Proof.
  destruct (invariant_run events) as (_ & Hphase & _).
  assert (Hgate : isSubmitting (ui (run events)) = true ->
                  dispatch ClickSubmit (run events) = run events).
  { intros Hsub. unfold dispatch, submitEnabled. rewrite Hsub.
    destruct (render _); [reflexivity|]. now rewrite andb_false_r. }
  assert (Hiff : isSubmitting (ui (run events)) = true <-> inflight (run events) <> []).
  { destruct Hphase as [Hi Hs Hr|fd t0 Hi Hs Hr He Ht|fd response t0 Hi Hs Hr He Hres Ht];
      rewrite Hi, Hs; split; congruence. }
  split; [exact Hiff|]. split.
  - destruct Hphase as [Hi Hs Hr|fd t0 Hi Hs Hr He Ht|fd response t0 Hi Hs Hr He Hres Ht];
      rewrite Hi; simpl; lia.
  - intros Hin. apply Hgate, Hiff, Hin.
Qed.

Lemma C6_witness :
  dispatch ClickSubmit (run toSubmit) = run toSubmit /\
  dispatch ClickSubmit (run toFeedback) = run toFeedback.
Proof.
  split.
  - apply (C6_submit_is_single_flight toSubmit). vm_compute. discriminate.
  - apply (C6_submit_is_single_flight toFeedback). vm_compute. discriminate.
Defined.

(** C8. [handleNewAssessment] puts the initial record back, with every
    field at its default and the file handle at [null], clears [results],
    [feedback] and the error map, and shows step 0 of the form. In every
    session, from the result card, the page it leaves is the initial page
    in all its cells: [submitError] and [isSubmitting], which the handler
    does not write, are already [null] and [false] there. *)
Theorem C8_newAssessment_restores_initial :
  (forall st,
     formData (handleNewAssessment st) = initialFormData /\
     get (formData (handleNewAssessment st)) "bank_statement" = VNull /\
     results (handleNewAssessment st) = None /\
     feedback (handleNewAssessment st) = VNull /\
     stepErrors (handleNewAssessment st) = ∅ /\
     currentStep (handleNewAssessment st) = 0 /\
     showResults (handleNewAssessment st) = false) /\
  (forall events,
     render (ui (run events)) = ResultsView ->
     ui (dispatch ClickNewAssessment (run events)) = initialState).
Proof.
  split; [intros st; repeat split|].
  intros events Hview. unfold dispatch, newAssessmentShown. rewrite Hview.
  destruct (invariant_run events) as (_ & Hphase & _).
  apply render_results in Hview as [Hshow Hres].
  destruct Hphase as [Hi Hs Hr|fd t0 Hi Hs Hr He Ht|fd response t0 Hi Hs Hr He Hres' Ht];
    try congruence.
  destruct (Hr Hshow) as [_ Herr].
  unfold withUi. cbn [ui].
  destruct (ui (run events)) as [step shown record res fb submitting err errs].
  simpl in Hs, Herr. subst. reflexivity.
Qed.

Lemma C8_witness :
  ui (dispatch ClickNewAssessment (run toResults)) = initialState.
Proof.
  apply C8_newAssessment_restores_initial. vm_compute. reflexivity.
Defined.

(** C9. In every session the step index stays between 0 and the index of
    the last step. [handlePrevious] empties the error map and, from an
    index that is not negative, moves to the index before it or stays at
    0; it does not look at the record: it commutes with any change of it.
    [handleNext], when the step validates, empties the error map and, from
    an index within the registry, moves to the index after it or stays at
    the last one. *)
Theorem C9_step_index_in_range :
  (forall events, 0 <= currentStep (ui (run events)) <= Z.of_nat (length formSteps) - 1) /\
  (forall st,
     stepErrors (handlePrevious st) = ∅ /\
     (0 <= currentStep st ->
      currentStep (handlePrevious st) = Z.max 0 (currentStep st - 1)) /\
     (forall r, handlePrevious (setFormData r st) = setFormData r (handlePrevious st))) /\
  (forall st v,
     validateStep (currentStep st) (formData st) = Normal v ->
     isValid v = true ->
     stepErrors (handleNext st) = ∅ /\
     (currentStep st <= Z.of_nat (length formSteps) - 1 ->
      currentStep (handleNext st) =
        Z.min (Z.of_nat (length formSteps) - 1) (currentStep st + 1))).
Proof.
  split; [|split].
  - intros events. destruct (invariant_run events) as (Hrange & _). exact Hrange.
  - intros st. unfold handlePrevious. simpl.
    destruct (Z.ltb_spec 0 (currentStep st)); simpl; repeat split; auto; lia.
  - intros st v Hv Hvalid. unfold handleNext. rewrite Hv, Hvalid.
    change (Z.of_nat (length formSteps) - 1) with 3. change lastStep with 3. simpl.
    destruct (Z.ltb_spec (currentStep st) 3); simpl; split; auto; lia.
Qed.

Lemma C9_witness :
  currentStep (handleNext (setFormData applicant initialState)) = 1 /\
  currentStep (handlePrevious (setFormData applicant initialState)) = 0.
Proof.
  destruct C9_step_index_in_range as (_ & Hprev & Hnext).
  split.
  - destruct (Hnext (setFormData applicant initialState)
                {| isValid := true; errors := ∅ |}) as [_ Hstep].
    + vm_compute. reflexivity.
    + reflexivity.
    + rewrite Hstep; [reflexivity | vm_compute; discriminate].
  - destruct (Hprev (setFormData applicant initialState)) as (_ & Hstep & _).
    rewrite Hstep; [reflexivity | vm_compute; discriminate].
Defined.

(* ===================================================================== *)
(** * Further properties of the code *)
(* ===================================================================== *)

Import Views.

(** ** The validation engine, continued *)

Lemma isInherited_not_Yes v :
  isString v "Yes" = true -> isInherited (ToString v) = false.
Proof.
  destruct v as [| |b|x|s|f]; simpl; try discriminate.
  intros H. apply String.eqb_eq in H. now subst s.
Qed.

Lemma validationRules_none step :
  validationRules step = None <-> step < 0 \/ 3 < step.
Proof.
  split.
  - destruct step as [|p|p]; simpl; try discriminate; [|lia].
    do 3 (try (destruct p as [p|p|]; try discriminate)); lia.
  - intros [H|H]; destruct step as [|p|p]; try lia; try reflexivity.
    do 3 (try (destruct p as [p|p|]; try lia)); reflexivity.
Qed.

Lemma inheritedTrigger_step step rules formData :
  validationRules step = Some rules ->
  inheritedTrigger rules formData =
  (step =? 2) && isInherited (ToString (get formData "previous_loan_taken")).
Proof.
  intros Hrules.
  destruct (validationRules_steps _ _ Hrules) as [-> | [-> | [-> | ->]]];
    injection Hrules as <-; try reflexivity.
  unfold inheritedTrigger. cbn [conditionalRequired existsb].
  rewrite lookupCondition_Yes.
  destruct (isString _ "Yes") eqn:Hyes.
  - now rewrite (isInherited_not_Yes _ Hyes).
  - now destruct (isInherited _).
Qed.

Lemma validateStep_throws step rules formData :
  validationRules step = Some rules ->
  inheritedTrigger rules formData = true ->
  validateStep step formData =
  Throw (TypeError "conditions[triggerValue].forEach is not a function").
Proof.
  intros Hrules Hin.
  destruct (validationRules_steps _ _ Hrules) as [-> | [-> | [-> | ->]]];
    injection Hrules as <-; try discriminate.
  unfold inheritedTrigger in Hin. unfold validateStep.
  cbn [validationRules required conditionalRequired existsb checkConditional] in *.
  destruct (lookupCondition _ _); try discriminate. reflexivity.
Qed.

Lemma getRequiredFields_throws step rules formData :
  validationRules step = Some rules ->
  inheritedTrigger rules formData = true ->
  getRequiredFields step formData =
  Throw (TypeError "conditions[triggerValue] is not iterable").
Proof.
  intros Hrules Hin.
  destruct (validationRules_steps _ _ Hrules) as [-> | [-> | [-> | ->]]];
    injection Hrules as <-; try discriminate.
  unfold inheritedTrigger in Hin. unfold getRequiredFields.
  cbn [validationRules required conditionalRequired existsb pushConditional] in *.
  destruct (lookupCondition _ _); try discriminate. reflexivity.
Qed.

(** [validateStep], [getRequiredFields] and [isFieldRequired] throw on the
    same inputs: a step without rules, or the loan-history step with a
    trigger that names an inherited member. On every other input the three
    return. *)
Theorem validation_throws_iff step formData field :
  ((exists e, validateStep step formData = Throw e) <->
   (step < 0 \/ 3 < step) \/
   (step = 2 /\ isInherited (ToString (get formData "previous_loan_taken")) = true)) /\
  ((exists e, getRequiredFields step formData = Throw e) <->
   (exists e, validateStep step formData = Throw e)) /\
  ((exists e, isFieldRequired field step formData = Throw e) <->
   (exists e, validateStep step formData = Throw e)).
Proof.
  destruct (validationRules step) as [rules|] eqn:Hrules.
  - pose proof (inheritedTrigger_step _ _ formData Hrules) as Hin.
    assert (Hrange : ~ (step < 0 \/ 3 < step)).
    { intros H. apply validationRules_none in H. congruence. }
    destruct (inheritedTrigger rules formData) eqn:Hit.
    + symmetry in Hin. apply andb_true_iff in Hin as [H2 Hinh]. apply Z.eqb_eq in H2.
      rewrite (validateStep_throws _ _ _ Hrules Hit).
      unfold isFieldRequired. rewrite (getRequiredFields_throws _ _ _ Hrules Hit).
      repeat split; eauto.
    + rewrite (validateStep_returns _ _ _ Hrules Hit).
      unfold isFieldRequired. rewrite (getRequiredFields_requiredNow _ _ _ Hrules Hit).
      repeat split; try (intros [e He]; discriminate).
      intros [H|[-> Hinh]]; [tauto|]. rewrite Hinh in Hin. discriminate.
  - unfold isFieldRequired, getRequiredFields, validateStep. rewrite Hrules.
    apply validationRules_none in Hrules.
    repeat split; eauto.
Qed.

Lemma returns_plain step rules formData v :
  validationRules step = Some rules ->
  validateStep step formData = Normal v ->
  inheritedTrigger rules formData = false.
Proof.
  intros Hrules Hv. destruct (inheritedTrigger rules formData) eqn:Hit; [|reflexivity].
  rewrite (validateStep_throws _ _ _ Hrules Hit) in Hv. discriminate.
Qed.

Lemma returns_rules step formData v :
  validateStep step formData = Normal v -> exists rules, validationRules step = Some rules.
Proof.
  unfold validateStep. destruct (validationRules step); [eauto | discriminate].
Qed.

(** What [validateStep] reports is what [getRequiredFields] lists: a field
    has an error exactly when it is listed and [isEmpty], and the step is
    valid exactly when no listed field is empty. *)
Theorem validateStep_agrees_with_getRequiredFields step formData v fields :
  validateStep step formData = Normal v ->
  getRequiredFields step formData = Normal fields ->
  (forall f, is_Some (errors v !! f) <-> In f fields /\ isEmpty (get formData f) = true) /\
  (isValid v = true <-> forall f, In f fields -> isEmpty (get formData f) = false).
Proof.
  intros Hv Hfields.
  destruct (returns_rules _ _ _ Hv) as [rules Hrules].
  pose proof (returns_plain _ _ _ _ Hrules Hv) as Hplain.
  rewrite (getRequiredFields_requiredNow _ _ _ Hrules Hplain) in Hfields.
  injection Hfields as <-.
  rewrite (validateStep_returns _ _ _ Hrules Hplain) in Hv. injection Hv as <-.
  cbn [isValid errors]. split.
  - intros f. rewrite checkFields_lookup, lookup_empty.
    destruct (existsb (String.eqb f) (requiredNow rules formData)) eqn:He; simpl.
    + apply existsb_exists in He as (g & Hin & Hg). apply String.eqb_eq in Hg. subst g.
      destruct (isEmpty (get formData f)); split; eauto;
        try (intros [x Hx]; discriminate); intros [_ H]; discriminate.
    + split; [intros [x Hx]; discriminate|]. intros [Hin _].
      assert (existsb (String.eqb f) (requiredNow rules formData) = true); [|congruence].
      apply existsb_exists. exists f. split; [exact Hin | apply String.eqb_refl].
  - rewrite forallb_forall. split; intros H f Hin; apply H in Hin;
      now destruct (isEmpty (get formData f)).
Qed.

Lemma validateStep_agrees_witness :
  exists v, validateStep 2 (<["previous_loan_taken" := VStr "Yes"]> initialFormData) = Normal v /\
            is_Some (errors v !! "repayment_status") /\ isValid v = false.
Proof.
  eexists. split; [reflexivity|]. split; [|reflexivity].
  eapply (validateStep_agrees_with_getRequiredFields 2
            (<["previous_loan_taken" := VStr "Yes"]> initialFormData)).
  - reflexivity.
  - reflexivity.
  - split; [simpl; auto | reflexivity].
Defined.

(** The message of a reported field is built from its label. *)
Lemma reported_field_label step formData v f msg :
  validateStep step formData = Normal v ->
  errors v !! f = Some msg ->
  exists label, assoc f fieldLabels = Some label /\ msg = label ++ " is required".
Proof.
  intros Hv Hmsg.
  destruct (returns_rules _ _ _ Hv) as [rules Hrules].
  rewrite (validateStep_errors _ _ _ _ f Hrules Hv) in Hmsg.
  destruct (existsb (String.eqb f) (requiredNow rules formData)) eqn:He;
    [|discriminate].
  destruct (isEmpty (get formData f)); [|discriminate].
  injection Hmsg as <-.
  apply existsb_exists in He as (g & Hin & Hg). apply String.eqb_eq in Hg. subst g.
  destruct (validationRules_steps _ _ Hrules) as [-> | [-> | [-> | ->]]];
    injection Hrules as <-; unfold requiredNow in Hin;
    cbn [required conditionalRequired flat_map] in Hin;
    try destruct (isString _ "Yes"); simpl in Hin;
    repeat (destruct Hin as [<-|Hin]; [eexists; split; reflexivity|]);
    destruct Hin.
Qed.

(** Every message [validateStep] returns is the label of its field followed
    by " is required": each field the registry can require has a label, so
    no message reads "undefined is required". *)
Theorem validateStep_messages step formData v f msg :
  validateStep step formData = Normal v ->
  errors v !! f = Some msg ->
  exists label, assoc f fieldLabels = Some label /\ msg = label ++ " is required".
Proof. exact (reported_field_label step formData v f msg). Qed.

Lemma validateStep_messages_witness :
  exists label, assoc "age" fieldLabels = Some label /\
                "Age is required" = label ++ " is required".
Proof.
  apply (validateStep_messages 0 initialFormData
           {| isValid := false;
              errors := checkFields initialFormData
                          ["age"; "gender"; "employment_status"] ∅ |} "age");
    reflexivity.
Defined.

(** A field a step declares optional is never reported on that step,
    whatever it holds. *)
Theorem optional_never_reported step rules formData v f :
  validationRules step = Some rules ->
  In f (optional rules) ->
  validateStep step formData = Normal v ->
  errors v !! f = None.
Proof.
  intros Hrules Hopt Hv.
  rewrite (validateStep_errors _ _ _ _ f Hrules Hv).
  destruct (existsb (String.eqb f) (requiredNow rules formData)) eqn:He; [|reflexivity].
  exfalso. apply existsb_exists in He as (g & Hin & Hg). apply String.eqb_eq in Hg. subst g.
  destruct (validationRules_steps _ _ Hrules) as [-> | [-> | [-> | ->]]];
    injection Hrules as <-; unfold requiredNow in Hin;
    cbn [required conditionalRequired optional flat_map] in Hin, Hopt;
    try destruct (isString _ "Yes"); simpl in Hin, Hopt;
    repeat (destruct Hopt as [<-|Hopt];
            [repeat (destruct Hin as [Hin|Hin]; [discriminate|]); destruct Hin|]);
    destruct Hopt.
Qed.

Lemma optional_never_reported_witness :
  exists v, validateStep 1 initialFormData = Normal v /\
            isValid v = false /\
            errors v !! "gambling_transactions_count" = None.
Proof.
  eexists. split; [reflexivity|]. split; [reflexivity|].
  eapply (optional_never_reported 1 _ initialFormData); [reflexivity | | reflexivity].
  simpl. auto.
Defined.

(** Writing a field that a step does not read leaves that step's
    validation as it was. *)
Theorem validateStep_frame step rules formData k x :
  validationRules step = Some rules ->
  ~ In k (fieldsRead rules) ->
  validateStep step (<[k := x]> formData) = validateStep step formData.
Proof.
  intros Hrules Hk.
  assert (Hget : forall f, In f (fieldsRead rules) ->
                           get (<[k := x]> formData) f = get formData f).
  { intros f Hf. apply get_insert_ne. intros ->. contradiction. }
  assert (Hcheck : forall fields errs,
            (forall f, In f fields -> In f (fieldsRead rules)) ->
            checkFields (<[k := x]> formData) fields errs =
            checkFields formData fields errs).
  { intros fields. unfold checkFields.
    induction fields as [|g fields IH]; intros errs Hsub; [reflexivity|].
    simpl. rewrite (Hget g) by (apply Hsub; now left).
    apply IH. intros f Hf. apply Hsub. now right. }
  destruct (validationRules_steps _ _ Hrules) as [-> | [-> | [-> | ->]]];
    unfold validateStep; rewrite Hrules; injection Hrules as <-;
    unfold fieldsRead in *;
    cbn [required conditionalRequired flat_map checkConditional snd app] in *;
    rewrite ?Hcheck by (intros f Hf; simpl in *; tauto); try reflexivity.
  rewrite (Hget "previous_loan_taken") by (simpl; tauto).
  rewrite lookupCondition_Yes.
  destruct (isString _ "Yes"); [|destruct (isInherited _)];
    rewrite ?Hcheck by (intros f Hf; simpl in *; tauto); reflexivity.
Qed.

Lemma validateStep_frame_witness :
  validateStep 0 (<["airtime_spend_per_month" := VStr "200"]> initialFormData) =
  validateStep 0 initialFormData.
Proof.
  apply (validateStep_frame 0 _ initialFormData "airtime_spend_per_month" (VStr "200")
           eq_refl).
  simpl. intros [H|[H|[H|[]]]]; discriminate.
Defined.

(** ** The step components and the registry *)

Lemma componentAt_steps step c :
  componentAt step = Some c ->
  (step = 0 /\ c = UserDemographics) \/ (step = 1 /\ c = FileUpload) \/
  (step = 2 /\ c = LoanHistory) \/ (step = 3 /\ c = UserBehaviour).
Proof.
  unfold componentAt. destruct (Z.ltb_spec step 0) as [|Hpos]; [discriminate|].
  assert (Hs : step = 0 \/ step = 1 \/ step = 2 \/ step = 3 \/ 4 <= step) by lia.
  destruct Hs as [-> | [-> | [-> | [-> | Hbig]]]];
    try (simpl; intros H; injection H as <-; auto 10).
  rewrite (proj2 (lookup_ge_None formSteps (Z.to_nat step))); [discriminate|].
  simpl. lia.
Qed.

(** The inputs a step component marks with a star are, in the same order,
    the fields [getRequiredFields] lists for that step and record; the
    inputs it marks optional are declared optional by the step's rules. *)
Theorem starred_inputs_are_required step c formData fields :
  componentAt step = Some c ->
  getRequiredFields step formData = Normal fields ->
  starred (inputs c formData) = fields /\
  (forall rules f, validationRules step = Some rules ->
                   In f (unstarred (inputs c formData)) -> In f (optional rules)).
Proof.
  intros Hc Hfields.
  destruct (componentAt_steps _ _ Hc) as [[-> ->]|[[-> ->]|[[-> ->]|[-> ->]]]].
  - injection Hfields as <-. split; [reflexivity|].
    intros rules f Hrules. injection Hrules as <-. simpl. tauto.
  - injection Hfields as <-. split; [reflexivity|].
    intros rules f Hrules. injection Hrules as <-. simpl. tauto.
  - unfold getRequiredFields in Hfields.
    cbn [validationRules required conditionalRequired pushConditional] in Hfields.
    rewrite lookupCondition_Yes in Hfields. unfold inputs.
    destruct (isString (get formData "previous_loan_taken") "Yes").
    + injection Hfields as <-. split; [reflexivity|].
      intros rules f Hrules. injection Hrules as <-. simpl. tauto.
    + destruct (isInherited _); [discriminate|]. injection Hfields as <-.
      split; [reflexivity|].
      intros rules f Hrules. injection Hrules as <-. simpl. tauto.
  - injection Hfields as <-. split; [reflexivity|].
    intros rules f Hrules. injection Hrules as <-. simpl. tauto.
Qed.

Lemma starred_inputs_witness :
  starred (inputs LoanHistory (<["previous_loan_taken" := VStr "Yes"]> initialFormData)) =
  ["previous_loan_taken"; "previous_loan_amount"; "repayment_status";
   "missed_payment_count"].
Proof.
  apply (starred_inputs_are_required 2 LoanHistory
           (<["previous_loan_taken" := VStr "Yes"]> initialFormData)); reflexivity.
Defined.

(** The step registry and the rule registry have the same indices, and in
    every session the current index is one of them: the page always finds
    the component to render and the handlers always find the rules to
    check. *)
Theorem current_step_has_component_and_rules :
  (forall step, is_Some (componentAt step) <-> is_Some (validationRules step)) /\
  (forall events,
     is_Some (componentAt (currentStep (ui (run events)))) /\
     is_Some (validationRules (currentStep (ui (run events))))).
Proof.
  assert (Hiff : forall step, is_Some (componentAt step) <-> 0 <= step <= 3).
  { intros step. split.
    - intros [c Hc].
      destruct (componentAt_steps _ _ Hc) as [[-> _]|[[-> _]|[[-> _]|[-> _]]]]; lia.
    - intros H. assert (step = 0 \/ step = 1 \/ step = 2 \/ step = 3) as Hs by lia.
      destruct Hs as [-> | [-> | [-> | ->]]]; eexists; reflexivity. }
  assert (Hrules : forall step, is_Some (validationRules step) <-> 0 <= step <= 3).
  { intros step. split.
    - intros [r Hr].
      destruct (validationRules_steps _ _ Hr) as [-> | [-> | [-> | ->]]]; lia.
    - intros H. assert (step = 0 \/ step = 1 \/ step = 2 \/ step = 3) as Hs by lia.
      destruct Hs as [-> | [-> | [-> | ->]]]; eexists; reflexivity. }
  split.
  - intros step. now rewrite Hiff, Hrules.
  - intros events. rewrite Hiff, Hrules.
    destruct (invariant_run events) as (Hrange & _). unfold stepInRange in Hrange.
    change lastStep with 3 in Hrange. tauto.
Qed.

(** ** Loan history, continued *)

Lemma handleChange_No_get formData :
  let reset := LoanHistory.handleChange formData "previous_loan_taken" (VStr "No") in
  get reset "previous_loan_taken" = VStr "No" /\
  get reset "previous_loan_amount" = VStr "" /\
  get reset "repayment_status" = VStr "N/A" /\
  get reset "missed_payment_count" = VStr "0".
Proof.
  unfold LoanHistory.handleChange. simpl.
  repeat split; rewrite ?get_insert_ne by discriminate; apply get_insert_eq.
Qed.

(** Once the applicant answers "No", the loan-history step validates
    whatever the record held before, and the prediction payload carries
    [previous_loan_taken] "No", [previous_loan_amount] 0, [repayment_status]
    "N/A" and [missed_payment_count] 0. *)
Theorem answering_No_validates (formData : gmap string value) :
  validateStep 2 (LoanHistory.handleChange formData "previous_loan_taken" (VStr "No")) =
    Normal {| isValid := true; errors := ∅ |} /\
  predictionData (LoanHistory.handleChange formData "previous_loan_taken" (VStr "No"))
    !! "previous_loan_taken" = Some (VStr "No") /\
  predictionData (LoanHistory.handleChange formData "previous_loan_taken" (VStr "No"))
    !! "previous_loan_amount" = Some (VNum zero) /\
  predictionData (LoanHistory.handleChange formData "previous_loan_taken" (VStr "No"))
    !! "repayment_status" = Some (VStr "N/A") /\
  predictionData (LoanHistory.handleChange formData "previous_loan_taken" (VStr "No"))
    !! "missed_payment_count" = Some (VNum zero).
Proof.
  destruct (handleChange_No_get formData) as (Ht & Ha & Hs & Hc).
  split; [|repeat split].
  - unfold validateStep.
    cbn [validationRules required conditionalRequired checkConditional checkFields foldl].
    rewrite lookupCondition_Yes, Ht. reflexivity.
  - rewrite (predictionData_enumerated _ "previous_loan_taken" "No") by (simpl; auto).
    now rewrite Ht.
  - rewrite (predictionData_numeric _ "previous_loan_amount" Float) by (simpl; auto 20).
    now rewrite Ha.
  - rewrite (predictionData_enumerated _ "repayment_status" "N/A") by (simpl; auto).
    now rewrite Hs.
  - rewrite (predictionData_numeric _ "missed_payment_count" Integer) by (simpl; auto 20).
    now rewrite Hc.
Qed.

(** Answering "No" and then "Yes" leaves the values the first answer wrote:
    "N/A" and "0" count as filled, so the step then reports
    [previous_loan_amount] and nothing else. *)
Theorem answering_No_then_Yes (formData : gmap string value) :
  validateStep 2
    (LoanHistory.handleChange
       (LoanHistory.handleChange formData "previous_loan_taken" (VStr "No"))
       "previous_loan_taken" (VStr "Yes")) =
  Normal {| isValid := false;
            errors := {[ "previous_loan_amount" := "Previous Loan Amount is required" ]} |}.
Proof.
  destruct (handleChange_No_get formData) as (Ht & Ha & Hs & Hc).
  unfold LoanHistory.handleChange at 1. simpl.
  unfold validateStep.
  cbn [validationRules required conditionalRequired checkConditional checkFields foldl].
  rewrite lookupCondition_Yes, !get_insert_eq.
  change (isString (VStr "Yes") "Yes") with true.
  cbn [checkFields foldl].
  rewrite !get_insert_ne by discriminate.
  rewrite Ha, Hs, Hc. reflexivity.
Qed.

(** ** Extraction merge, continued *)

(** [validateStep] reads the record only at the fields of its step. *)
Lemma validateStep_ext step rules formData1 formData2 :
  validationRules step = Some rules ->
  (forall f, In f (fieldsRead rules) -> get formData1 f = get formData2 f) ->
  validateStep step formData1 = validateStep step formData2.
Proof.
  intros Hrules Hget.
  assert (Hcheck : forall fields errs,
            (forall f, In f fields -> In f (fieldsRead rules)) ->
            checkFields formData1 fields errs = checkFields formData2 fields errs).
  { intros fields. unfold checkFields.
    induction fields as [|g fields IH]; intros errs Hsub; [reflexivity|].
    simpl. rewrite (Hget g) by (apply Hsub; now left).
    apply IH. intros f Hf. apply Hsub. now right. }
  destruct (validationRules_steps _ _ Hrules) as [-> | [-> | [-> | ->]]];
    unfold validateStep; rewrite Hrules; injection Hrules as <-;
    unfold fieldsRead in *;
    cbn [required conditionalRequired flat_map checkConditional snd app] in *;
    rewrite ?Hcheck by (intros f Hf; simpl in *; tauto); try reflexivity.
  rewrite (Hget "previous_loan_taken") by (simpl; tauto).
  rewrite lookupCondition_Yes.
  destruct (isString _ "Yes"); [|destruct (isInherited _)];
    rewrite ?Hcheck by (intros f Hf; simpl in *; tauto); reflexivity.
Qed.

(** When the extraction succeeds, whatever the record holds at that moment,
    each of the nine financial fields takes the value the service returned
    ([undefined] when the response lacks it), [bank_statement] holds the
    chosen file, every other field keeps its value; the component shows
    success and no error. *)
Theorem successful_extraction_overwrites (st : FileUpload.state) file extracted :
  (forall k,
     get (FileUpload.formData
            (FileUpload.handleFileChangeSettled file (Resolved extracted) st)) k =
     if existsb (String.eqb k) FileUpload.financialFields then get extracted k
     else if String.eqb k "bank_statement" then file
     else get (FileUpload.formData st) k) /\
  FileUpload.extractionSuccess
    (FileUpload.handleFileChangeSettled file (Resolved extracted) st) = true /\
  FileUpload.isExtracting
    (FileUpload.handleFileChangeSettled file (Resolved extracted) st) = false /\
  FileUpload.extractionError
    (FileUpload.handleFileChangeSettled file (Resolved extracted) st) =
    FileUpload.extractionError st.
Proof.
  split; [|repeat split]. intros k. apply mergeExtracted_get.
Qed.

(** After a successful extraction the financial step validates exactly as
    the service's response does on its own: what was typed before plays no
    part, and a required field the response lacks is reported. *)
Theorem extraction_decides_financial_step (st : FileUpload.state) file extracted :
  validateStep 1
    (FileUpload.formData (FileUpload.handleFileChangeSettled file (Resolved extracted) st)) =
  validateStep 1 extracted.
Proof.
  apply (validateStep_ext 1 _ _ _ eq_refl).
  intros f Hf. simpl FileUpload.formData. rewrite mergeExtracted_get.
  unfold fieldsRead in Hf. simpl in Hf.
  repeat (destruct Hf as [<-|Hf]; [reflexivity|]). destruct Hf.
Qed.

(** Whatever the service answers, an upload attempt ends with the spinner
    off, the chosen file recorded in the record and in [fileName], and
    exactly one of the two marks set: success, or an error message. *)
Theorem upload_attempt_ends_marked (st : FileUpload.state) (file : string) (o : outcome) :
  FileUpload.isExtracting (FileUpload.uploadAttempt file o st) = false /\
  FileUpload.fileName (FileUpload.uploadAttempt file o st) = file /\
  get (FileUpload.formData (FileUpload.uploadAttempt file o st)) "bank_statement" =
    VFile file /\
  (FileUpload.extractionSuccess (FileUpload.uploadAttempt file o st) = true <->
   FileUpload.extractionError (FileUpload.uploadAttempt file o st) = None) /\
  (FileUpload.extractionSuccess (FileUpload.uploadAttempt file o st) = true <->
   exists extracted, o = Resolved extracted).
Proof.
  destruct o as [extracted|e]; unfold FileUpload.uploadAttempt; simpl.
  - repeat split; eauto. now rewrite mergeExtracted_get.
  - repeat split; try discriminate; try apply get_insert_eq.
    intros [x Hx]. discriminate.
Qed.

(** ** The trace of a session *)

Import Rounds.

Lemma handleNext_feedback st : feedback (handleNext st) = feedback st.
Proof.
  unfold handleNext. destruct (validateStep _ _) as [v|e]; [|auto].
  destruct (isValid v); simpl; [|auto].
  destruct (currentStep st <? lastStep); simpl; auto.
Qed.

Lemma handlePrevious_feedback st : feedback (handlePrevious st) = feedback st.
Proof. unfold handlePrevious. simpl. destruct (0 <? currentStep st); simpl; auto. Qed.

(** The shape of the trace reads the page at three cells only. *)
Lemma sequenced_withUi s st :
  sequenced s ->
  showResults st = showResults (ui s) ->
  results st = results (ui s) ->
  feedback st = feedback (ui s) ->
  sequenced (withUi st s).
Proof.
  intros [Hi Hr Hs|fd t Hi Hp Hr Ht|fd response t Hi Hp Hr Ht Hres] E1 E2 E3.
  - apply SeqIdle; simpl; auto. rewrite E1, E2, E3. exact Hs.
  - now apply (SeqPredicting _ fd t).
  - apply (SeqAwaiting _ fd response t); simpl; auto. now rewrite E2.
Qed.

Lemma sequenced_dispatch e s :
  invariant s -> sequenced s -> sequenced (dispatch e s).
Proof.
  intros (Hrange & Hphase & _) Hseq.
  destruct e as [| | | |r|i o]; simpl.
  - destruct (nextShown (ui s)); [|auto].
    destruct (handleNext_cells (ui s)) as (_ & E2 & E3 & _).
    apply sequenced_withUi; auto using handleNext_feedback.
  - destruct (previousEnabled (ui s)); [|auto].
    destruct (handlePrevious_cells (ui s)) as (_ & E2 & E3 & _).
    apply sequenced_withUi; auto using handlePrevious_feedback.
  - destruct (submitEnabled (ui s)) eqn:Hen; [|auto].
    apply submitEnabled_spec in Hen as (Hview & Hlast & Hsub).
    destruct (render_form_idle s Hphase Hsub Hview) as [Hidle Hshow].
    destruct Hseq as [Hi Hr Hs|fd t Hi Hp Hr Ht|fd response t Hi Hp Hr Ht Hres];
      try congruence.
    unfold handleSubmit.
    destruct (validateStep _ _) as [v|err] eqn:Hv; simpl.
    + destruct (isValid v) eqn:Hvalid; simpl.
      * apply (SeqPredicting _ (formData (ui s)) (trace s)); simpl; auto.
        -- now rewrite Hidle.
        -- exists v. rewrite <- Hlast. auto.
      * rewrite !app_nil_r. apply SeqIdle; simpl; auto.
    + rewrite !app_nil_r. apply SeqIdle; simpl; auto.
  - destruct (newAssessmentShown (ui s)) eqn:Hnew; [|auto].
    unfold newAssessmentShown in Hnew.
    destruct (render (ui s)) eqn:Hview; [|discriminate].
    apply render_results in Hview as [Hshow Hres].
    destruct Hphase as [Hi' Hs' Hr'|fd' t0 Hi' Hs' Hr' He' Ht'|fd' r' t0 Hi' Hs' Hr' He' Hres' Ht'];
      try congruence.
    destruct Hseq as [Hi Hr Hs|fd t Hi Hp Hr Ht|fd response t Hi Hp Hr Ht Hres2];
      try congruence.
    apply SeqIdle; simpl; auto. discriminate.
  - now apply sequenced_withUi.
  - destruct Hseq as [Hi Hr Hs|fd t Hi Hp Hr Ht|fd response t Hi Hp Hr Ht Hres].
    + rewrite Hi. simpl. now apply SeqIdle.
    + assert (Hshow : showResults (ui s) = false).
      { destruct Hphase as [Hi' Hs' Hr'|fd' t0 Hi' Hs' Hr' He' Ht'|fd' r' t0 Hi' Hs' Hr' He' Hres' Ht'];
          congruence. }
      rewrite Hi. destruct i as [|i]; simpl.
      * destruct o as [response|err]; simpl.
        -- apply (SeqAwaiting _ fd response t); simpl; auto.
           rewrite Ht, <- app_assoc. reflexivity.
        -- apply SeqIdle; simpl; auto; [|congruence].
           rewrite Ht, <- app_assoc. apply MoreRounds; [exact Hr|].
           now apply FailedRound.
      * now apply (SeqPredicting _ fd t).
    + rewrite Hi. destruct i as [|i]; simpl.
      * assert (Hend : forall done st',
                  feedbackEnd done = true ->
                  results st' = results (ui s) ->
                  feedback st' = feedbackOf done ->
                  sequenced {| ui := st'; inflight := [];
                               trace := (trace s ++ [done])%list |}).
        { intros done st' Hdone E2 E3. rewrite Ht, <- app_assoc.
          apply SeqIdle; simpl.
          - reflexivity.
          - apply MoreRounds; [exact Hr|]. now apply ScoredRound.
          - intros _. exists t, fd, response, done. rewrite E2. auto. }
        destruct o as [feedbackResponse|err]; simpl; apply Hend; reflexivity.
      * now apply (SeqAwaiting _ fd response t).
Qed.

Lemma sequenced_foldl events s :
  invariant s -> sequenced s ->
  sequenced (foldl (fun s e => dispatch e s) s events).
Proof.
  revert s. induction events as [|e events IH]; intros s Hinv Hs; simpl; [exact Hs|].
  apply IH; [now apply invariant_dispatch | now apply sequenced_dispatch].
Qed.

Lemma sequenced_run events : sequenced (run events).
Proof.
  apply sequenced_foldl; [apply invariant_initial|].
  apply SeqIdle; simpl; [reflexivity | apply NoRound | discriminate].
Qed.

Lemma round_predict r data :
  round r -> In (CallPredict data) r ->
  exists fd, data = predictionData fd /\ passesLastStep fd.
Proof.
  intros [fd e Hp|fd response done Hp Hdone] Hin; simpl in Hin.
  - destruct Hin as [H|[H|[]]]; [|discriminate]. injection H as <-. eauto.
  - destruct Hin as [H|[H|[H|[H|[]]]]]; try discriminate.
    + injection H as <-. eauto.
    + subst done. discriminate.
Qed.

Lemma rounds_predict t data :
  rounds t -> In (CallPredict data) t ->
  exists fd, data = predictionData fd /\ passesLastStep fd.
Proof.
  induction 1 as [|t r Ht IH Hr]; intros Hin; [destruct Hin|].
  apply in_app_or in Hin as [Hin|Hin]; [auto | eapply round_predict; eauto].
Qed.

(** The trace of every session is a sequence of complete rounds followed by
    what the submission in flight, if any, has done so far. Rounds do not
    overlap: a prediction is requested only when the round before is
    complete. Within a round the feedback request is built from the very
    record the prediction request was built from, the one on the page when
    Submit was clicked, whatever was edited since. *)
Theorem trace_is_a_sequence_of_rounds (events : list event) :
  exists t rest,
    trace (run events) = (t ++ rest)%list /\ rounds t /\
    ((rest = [] /\ inflight (run events) = []) \/
     (exists fd,
        passesLastStep fd /\
        rest = [CallPredict (predictionData fd)] /\
        inflight (run events) = [AwaitPredict fd (predictionData fd)]) \/
     (exists fd response,
        passesLastStep fd /\
        rest = [CallPredict (predictionData fd); PredictReturned response;
                CallFeedback (feedbackData fd response)] /\
        inflight (run events) = [AwaitFeedback (feedbackData fd response)])).
Proof.
  destruct (sequenced_run events)
    as [Hi Hr Hs|fd t Hi Hp Hr Ht|fd response t Hi Hp Hr Ht Hres].
  - exists (trace (run events)), []. rewrite app_nil_r. auto.
  - exists t, [CallPredict (predictionData fd)]. split; [exact Ht|]. split; [exact Hr|].
    right. left. eauto.
  - eexists t, _. split; [exact Ht|]. split; [exact Hr|].
    right. right. eauto 6.
Qed.

Lemma run_snoc events e : run (events ++ [e]) = dispatch e (run events).
Proof. unfold run. now rewrite foldl_app. Qed.

(** Validation stands between the page and the network: in every session,
    each request sent to the prediction service was sent by a click on
    Submit, on the last step, and is the normalisation of the record the
    page held at that click, which [validateStep] had just found valid on
    the last step. *)
Theorem every_prediction_request_is_validated (events : list event) data :
  In (CallPredict data) (trace (run events)) ->
  exists before after v,
    events = (before ++ ClickSubmit :: after)%list /\
    submitEnabled (ui (run before)) = true /\
    currentStep (ui (run before)) = lastStep /\
    validateStep lastStep (formData (ui (run before))) = Normal v /\
    isValid v = true /\
    data = predictionData (formData (ui (run before))).
Proof.
  induction events as [|e events IH] using rev_ind; [intros []|].
  rewrite run_snoc. intros Hin.
  assert (Hold : In (CallPredict data) (trace (run events)) ->
            exists before after v,
              (events ++ [e])%list = (before ++ ClickSubmit :: after)%list /\
              submitEnabled (ui (run before)) = true /\
              currentStep (ui (run before)) = lastStep /\
              validateStep lastStep (formData (ui (run before))) = Normal v /\
              isValid v = true /\
              data = predictionData (formData (ui (run before)))).
  { intros H. destruct (IH H) as (before & after & v & -> & Hrest).
    exists before, (after ++ [e])%list, v. split; [|exact Hrest].
    now rewrite <- app_assoc. }
  destruct e as [| | | |r|i o]; cbn [dispatch] in Hin.
  - destruct (nextShown _); auto.
  - destruct (previousEnabled _); auto.
  - destruct (submitEnabled (ui (run events))) eqn:Hen; [|auto].
    assert (Hstep : currentStep (ui (run events)) = lastStep).
    { unfold submitEnabled in Hen. destruct (render _); [discriminate|].
      apply andb_true_iff in Hen as [Hen _]. now apply Z.eqb_eq in Hen. }
    unfold handleSubmit in Hin. rewrite Hstep in Hin.
    destruct (validateStep lastStep (formData (ui (run events)))) as [v|err] eqn:Hv;
      [|cbn [trace] in Hin; rewrite app_nil_r in Hin; auto].
    destruct (isValid v) eqn:Hvalid; cbn [negb trace] in Hin;
      [|rewrite app_nil_r in Hin; auto].
    apply in_app_or in Hin as [Hin|[Hin|[]]]; [auto|].
    injection Hin as <-. exists events, [], v. auto 10.
  - destruct (newAssessmentShown _); auto.
  - auto.
  - destruct (inflight (run events) !! i) as [[fd d|d]|]; [| |auto].
    + destruct o as [response|err]; cbn [predictSettled trace] in Hin;
        apply in_app_or in Hin as [Hin|Hin]; auto;
        repeat (destruct Hin as [Hin|Hin]; [discriminate|]); destruct Hin.
    + destruct o as [response|err]; cbn [feedbackSettled trace] in Hin;
        apply in_app_or in Hin as [Hin|Hin]; auto;
        repeat (destruct Hin as [Hin|Hin]; [discriminate|]); destruct Hin.
Qed.

Lemma every_prediction_request_witness :
  exists before after v,
    toFeedback = (before ++ ClickSubmit :: after)%list /\
    submitEnabled (ui (run before)) = true /\
    currentStep (ui (run before)) = lastStep /\
    validateStep lastStep (formData (ui (run before))) = Normal v /\
    isValid v = true /\
    predictionData applicant = predictionData (formData (ui (run before))).
Proof.
  apply (every_prediction_request_is_validated toFeedback).
  vm_compute. auto.
Defined.

(** What is on screen in the results view, and the round it comes from. *)
Lemma results_view_last_round (events : list event) :
  render (ui (run events)) = ResultsView ->
  exists t fd response done,
    trace (run events) =
      (t ++ [CallPredict (predictionData fd); PredictReturned response;
             CallFeedback (feedbackData fd response); done])%list /\
    results (ui (run events)) = Some (scoringOf response) /\
    ((exists r, done = FeedbackReturned r /\
                feedback (ui (run events)) = get r "feedback") \/
     (exists e, done = FeedbackFailed e /\ feedback (ui (run events)) = VNull)).
Proof.
  intros Hview. apply render_results in Hview as [Hshow Hres].
  destruct (invariant_run events) as (_ & Hphase & _).
  destruct (sequenced_run events)
    as [Hi Hr Hs|fd t Hi Hp Hr Ht|fd response t Hi Hp Hr Ht Hres'].
  - destruct (Hs Hshow) as (t & fd & response & done & Ht & Hdone & Hr' & Hf).
    exists t, fd, response, done. split; [exact Ht|]. split; [exact Hr'|].
    destruct done; try discriminate; [left | right]; eexists; split; eauto.
  - destruct Hphase as [Hi' Hs' Hr'|fd' t0 Hi' Hs' Hr' He' Ht'|fd' r' t0 Hi' Hs' Hr' He' Hres'' Ht'];
      congruence.
  - destruct Hphase as [Hi' Hs' Hr'|fd' t0 Hi' Hs' Hr' He' Ht'|fd' r' t0 Hi' Hs' Hr' He' Hres'' Ht'];
      congruence.
Qed.

(** Whenever the result card is on screen, it shows the last round of the
    trace: [results] holds the four scoring fields of that round's
    prediction, and [feedback] holds the text that round's feedback call
    returned, or [null] when that call failed. *)
Theorem result_card_shows_last_round (events : list event) :
  render (ui (run events)) = ResultsView ->
  exists t fd response done,
    trace (run events) =
      (t ++ [CallPredict (predictionData fd); PredictReturned response;
             CallFeedback (feedbackData fd response); done])%list /\
    results (ui (run events)) = Some (scoringOf response) /\
    ((exists r, done = FeedbackReturned r /\
                feedback (ui (run events)) = get r "feedback") \/
     (exists e, done = FeedbackFailed e /\ feedback (ui (run events)) = VNull)).
Proof. exact (results_view_last_round events). Qed.

Lemma result_card_witness :
  exists t fd response done,
    trace (run toResults) =
      (t ++ [CallPredict (predictionData fd); PredictReturned response;
             CallFeedback (feedbackData fd response); done])%list /\
    results (ui (run toResults)) = Some (scoringOf response).
Proof.
  destruct (result_card_shows_last_round toResults) as (t & fd & response & done & Ht & Hr & _).
  - vm_compute. reflexivity.
  - exists t, fd, response, done. auto.
Defined.

(** ** Navigation *)

Lemma validateStep_isValid_size step formData v :
  validateStep step formData = Normal v -> isValid v = Nat.eqb (size (errors v)) 0.
Proof.
  unfold validateStep. destruct (validationRules step) as [rules|]; [|discriminate].
  destruct (match conditionalRequired rules with
            | Some entries => _ | None => _ end) as [errs|e]; [|discriminate].
  intros H. now injection H as <-.
Qed.

(** [handleNext] leaves a step only when that step validates, and then by
    one step. On a step that does not validate it changes nothing but the
    error map, which it sets to the errors found, and there is at least
    one: the banner shows. When [validateStep] throws it changes nothing. *)
Theorem next_leaves_only_a_valid_step (st : state) :
  (currentStep (handleNext st) <> currentStep st ->
   exists v, validateStep (currentStep st) (formData st) = Normal v /\
             isValid v = true /\
             currentStep (handleNext st) = currentStep st + 1) /\
  (forall v, validateStep (currentStep st) (formData st) = Normal v ->
             isValid v = false ->
             handleNext st = setStepErrors (errors v) st /\ errors v <> ∅) /\
  (forall e, validateStep (currentStep st) (formData st) = Throw e ->
             handleNext st = st).
Proof.
  unfold handleNext.
  destruct (validateStep (currentStep st) (formData st)) as [v|e] eqn:Hv.
  - pose proof (validateStep_isValid_size _ _ _ Hv) as Hsize.
    destruct (isValid v) eqn:Hvalid; simpl.
    + split; [|split]; [|intros v' H; injection H as <-; congruence|discriminate].
      destruct (currentStep st <? lastStep); simpl; [|congruence]. eauto.
    + split; [|split]; [congruence| |discriminate].
      intros v' H _. injection H as <-. split; [reflexivity|].
      intros Hempty. rewrite Hempty, map_size_empty in Hsize. discriminate.
  - split; [|split]; [congruence|discriminate|reflexivity].
Qed.

Lemma next_leaves_only_a_valid_step_witness :
  exists v, validateStep 0 applicant = Normal v /\ isValid v = true /\
            currentStep (handleNext (setFormData applicant initialState)) = 0 + 1.
Proof.
  destruct (next_leaves_only_a_valid_step (setFormData applicant initialState))
    as (Hmove & _).
  apply Hmove. vm_compute. discriminate.
Defined.

(** Going back one step and forward again brings the page back to the step
    it was on, with the error map cleared and nothing else changed,
    provided the step gone back to still validates. *)
Theorem previous_then_next_returns (st : state) v :
  0 < currentStep st <= lastStep ->
  validateStep (currentStep st - 1) (formData st) = Normal v ->
  isValid v = true ->
  handleNext (handlePrevious st) = setStepErrors ∅ st.
Proof.
  intros [Hpos Hlast] Hv Hvalid. unfold handlePrevious. simpl.
  destruct (Z.ltb_spec 0 (currentStep st)); [|lia].
  unfold handleNext. simpl. rewrite Hv, Hvalid. simpl.
  destruct (Z.ltb_spec (currentStep st - 1) lastStep); [|lia].
  unfold setCurrentStep, setStepErrors. simpl. f_equal. lia.
Qed.

Lemma previous_then_next_witness :
  handleNext (handlePrevious (setCurrentStep 2 (setFormData applicant initialState))) =
  setStepErrors ∅ (setCurrentStep 2 (setFormData applicant initialState)).
Proof.
  eapply previous_then_next_returns.
  - vm_compute. split; [reflexivity | discriminate].
  - vm_compute. reflexivity.
  - reflexivity.
Defined.

Lemma labelled_dispatch e s :
  labelled (stepErrors (ui s)) -> labelled (stepErrors (ui (dispatch e s))).
Proof.
  intros Hl.
  assert (Hempty : labelled ∅).
  { intros f msg H. rewrite lookup_empty in H. discriminate. }
  assert (Hval : forall step fd v, validateStep step fd = Normal v -> labelled (errors v)).
  { intros step fd v Hv f msg. now apply (reported_field_label step fd). }
  destruct e as [| | | |r|i o]; simpl.
  - destruct (nextShown (ui s)); [|exact Hl]. simpl. unfold handleNext.
    destruct (validateStep _ _) as [v|err] eqn:Hv; [|exact Hl].
    destruct (isValid v); simpl.
    + destruct (currentStep (ui s) <? lastStep); exact Hempty.
    + eauto.
  - destruct (previousEnabled (ui s)); [|exact Hl]. simpl. unfold handlePrevious. simpl.
    destruct (0 <? currentStep (ui s)); exact Hempty.
  - destruct (submitEnabled (ui s)); [|exact Hl]. unfold handleSubmit.
    destruct (validateStep _ _) as [v|err] eqn:Hv; [|exact Hl].
    destruct (isValid v); simpl; eauto.
  - destruct (newAssessmentShown (ui s)); [exact Hempty | exact Hl].
  - exact Hl.
  - destruct (inflight s !! i) as [[fd data|data]|]; [| |exact Hl].
    + destruct o; exact Hl.
    + destruct o; exact Hl.
Qed.

(** In every session, whatever the error map holds are messages made of
    the label of the field they are filed under and " is required". *)
Theorem step_errors_are_labelled (events : list event) f msg :
  stepErrors (ui (run events)) !! f = Some msg ->
  exists label, assoc f fieldLabels = Some label /\ msg = label ++ " is required".
Proof.
  revert f msg. fold (labelled (stepErrors (ui (run events)))).
  unfold run.
  assert (H : forall s, labelled (stepErrors (ui s)) ->
                        labelled (stepErrors (ui (foldl (fun s e => dispatch e s) s events)))).
  { induction events as [|e events IH]; intros s Hs; simpl; [exact Hs|].
    apply IH. now apply labelled_dispatch. }
  apply H. intros f msg Hf. simpl in Hf. rewrite lookup_empty in Hf. discriminate.
Qed.

Lemma step_errors_are_labelled_witness :
  exists label, assoc "age" fieldLabels = Some label /\
                "Age is required" = label ++ " is required".
Proof.
  apply (step_errors_are_labelled [ClickNext] "age"). vm_compute. reflexivity.
Defined.

(** After a prediction fails, the Submit button is enabled again as soon as
    the page is on the last step, and a click on it, the record still
    validating, clears the message and sends a new prediction request built
    from the record as it is then. *)
Theorem failed_submission_can_be_retried (events : list event) i fd data e :
  inflight (run events) !! i = Some (AwaitPredict fd data) ->
  submitEnabled (ui (dispatch (Settles i (Rejected e)) (run events))) =
    (currentStep (ui (run events)) =? lastStep) /\
  (forall v,
     currentStep (ui (run events)) = lastStep ->
     validateStep lastStep (formData (ui (run events))) = Normal v ->
     isValid v = true ->
     submitError (ui (dispatch ClickSubmit
                        (dispatch (Settles i (Rejected e)) (run events)))) = None /\
     inflight (dispatch ClickSubmit (dispatch (Settles i (Rejected e)) (run events))) =
       [AwaitPredict (formData (ui (run events)))
                     (predictionData (formData (ui (run events))))] /\
     trace (dispatch ClickSubmit (dispatch (Settles i (Rejected e)) (run events))) =
       (trace (run events) ++
        [PredictFailed e; CallPredict (predictionData (formData (ui (run events))))])%list).
Proof.
  intros Hlook.
  destruct (invariant_run events) as (_ & Hphase & _).
  destruct (phase_predicting _ _ _ _ Hphase Hlook) as (t0 & -> & Hdata & Hin & Hshow & Ht).
  assert (Hen : submitEnabled (ui (dispatch (Settles 0 (Rejected e)) (run events))) =
                (currentStep (ui (run events)) =? lastStep)).
  { unfold dispatch. rewrite Hlook. simpl. unfold submitEnabled, render. simpl.
    rewrite Hshow. simpl. apply andb_true_r. }
  split; [exact Hen|].
  intros v Hlast Hv Hvalid.
  unfold dispatch at 1 3 5. rewrite Hen, Hlast, Z.eqb_refl.
  unfold dispatch. rewrite Hlook. simpl. rewrite Hin. simpl.
  unfold handleSubmit. simpl. rewrite Hlast, Hv, Hvalid. simpl.
  repeat split. now rewrite <- app_assoc.
Qed.

Lemma failed_submission_retry_witness :
  submitError (ui (run (toSubmit ++ [Settles 0 (Rejected unreachable); ClickSubmit]))) = None /\
  length (inflight (run (toSubmit ++ [Settles 0 (Rejected unreachable); ClickSubmit]))) = 1%nat.
Proof.
  destruct (failed_submission_can_be_retried toSubmit 0 applicant
              (predictionData applicant) unreachable) as [_ Hretry].
  - vm_compute. reflexivity.
  - destruct (Hretry {| isValid := true; errors := ∅ |}) as (Herr & Hin & _).
    + reflexivity.
    + vm_compute. reflexivity.
    + reflexivity.
    + change (run (toSubmit ++ [Settles 0 (Rejected unreachable); ClickSubmit]))
        with (dispatch ClickSubmit
                (dispatch (Settles 0 (Rejected unreachable)) (run toSubmit))).
      rewrite Herr, Hin. split; reflexivity.
Defined.

(** ** The stepper *)

Import Stepper.

(** Decide every comparison of integers the goal tests. *)
Ltac decide_orders :=
  repeat first
    [ match goal with |- context [(?x <=? ?y)%Z] => destruct (Z.leb_spec x y) end
    | match goal with |- context [(?x <? ?y)%Z] => destruct (Z.ltb_spec x y) end
    | match goal with |- context [(?x =? ?y)%Z] => destruct (Z.eqb_spec x y) end ].

Lemma items_length currentStep total index steps :
  length (items currentStep total index steps) = length steps.
Proof.
  revert index. induction steps as [|step rest IH]; intros index; simpl; [reflexivity|].
  now rewrite IH.
Qed.

Lemma items_lookup currentStep total index steps i it :
  items currentStep total index steps !! i = Some it ->
  filled it = (index + Z.of_nat i <=? currentStep) /\
  glows it = (currentStep =? index + Z.of_nat i) /\
  isCheck it = (index + Z.of_nat i <? currentStep) /\
  hasConnector it = (index + Z.of_nat i <? total - 1) /\
  goldConnector it =
    (index + Z.of_nat i <? total - 1) && (index + Z.of_nat i <? currentStep) /\
  connector it =
    (if index + Z.of_nat i <? total - 1
     then Some (index + Z.of_nat i <? currentStep) else None).
Proof.
  revert index i. induction steps as [|step rest IH]; intros index i; [discriminate|].
  destruct i as [|i]; simpl.
  - intros H. injection H as <-. rewrite Z.add_0_r. unfold isCheck, hasConnector,
      goldConnector. simpl.
    repeat split; try reflexivity.
    + now destruct (index <? currentStep).
    + now destruct (index <? total - 1).
    + now destruct (index <? total - 1).
  - intros H. apply IH in H.
    replace (index + Z.of_nat (S i)) with (index + 1 + Z.of_nat i) by lia.
    exact H.
Qed.

Lemma items_counts currentStep total index steps :
  count glows (items currentStep total index steps) =
    (if (index <=? currentStep) && (currentStep <? index + Z.of_nat (length steps))
     then 1 else 0) /\
  count isCheck (items currentStep total index steps) =
    Z.max 0 (Z.min (Z.of_nat (length steps)) (currentStep - index)) /\
  count filled (items currentStep total index steps) =
    Z.max 0 (Z.min (Z.of_nat (length steps)) (currentStep - index + 1)) /\
  count hasConnector (items currentStep total index steps) =
    Z.max 0 (Z.min (Z.of_nat (length steps)) (total - 1 - index)) /\
  count goldConnector (items currentStep total index steps) =
    Z.max 0 (Z.min (Z.of_nat (length steps))
                   (Z.min (currentStep - index) (total - 1 - index))).
Proof.
  revert index. induction steps as [|step rest IH]; intros index.
  - cbn [items count length]. change (Z.of_nat 0) with 0.
    decide_orders; simpl; repeat split; lia.
  - destruct (IH (index + 1)) as (H1 & H2 & H3 & H4 & H5).
    cbn [items count length]. rewrite H1, H2, H3, H4, H5.
    unfold isCheck, hasConnector, goldConnector. cbn [content connector filled glows].
    rewrite Nat2Z.inj_succ.
    decide_orders; simpl; repeat split; lia.
Qed.

(** For a step index within the list, the stepper draws one circle per
    step, makes exactly the current one glow, puts the check mark on
    exactly the steps before it and numbers on the others, fills the
    circles up to and including it, and draws a connector after every step
    but the last, gold for exactly those before the current step. *)
Theorem stepper_marks_progress (currentStep : Z) (steps : list formStep) :
  0 <= currentStep < Z.of_nat (length steps) ->
  length (Stepper currentStep steps) = length steps /\
  (forall i it, Stepper currentStep steps !! i = Some it ->
     glows it = (currentStep =? Z.of_nat i) /\
     isCheck it = (Z.of_nat i <? currentStep) /\
     filled it = (Z.of_nat i <=? currentStep) /\
     hasConnector it = (Z.of_nat i <? Z.of_nat (length steps) - 1) /\
     goldConnector it = (Z.of_nat i <? currentStep) /\
     connector it = (if Z.of_nat i <? Z.of_nat (length steps) - 1
                     then Some (Z.of_nat i <? currentStep) else None)) /\
  count glows (Stepper currentStep steps) = 1 /\
  count isCheck (Stepper currentStep steps) = currentStep /\
  count filled (Stepper currentStep steps) = currentStep + 1 /\
  count hasConnector (Stepper currentStep steps) = Z.of_nat (length steps) - 1 /\
  count goldConnector (Stepper currentStep steps) = currentStep.
Proof.
  intros Hrange. unfold Stepper.
  destruct (items_counts currentStep (Z.of_nat (length steps)) 0 steps)
    as (H1 & H2 & H3 & H4 & H5).
  rewrite H1, H2, H3, H4, H5, items_length.
  split; [reflexivity|]. split.
  - intros i it Hit.
    assert (Hi : Z.of_nat i < Z.of_nat (length steps)).
    { apply lookup_lt_Some in Hit. rewrite items_length in Hit. lia. }
    apply items_lookup in Hit as (Ha & Hb & Hc & Hd & He & Hf).
    rewrite Z.add_0_l in *. repeat split; auto.
    rewrite He. destruct (Z.ltb_spec (Z.of_nat i) currentStep);
      destruct (Z.ltb_spec (Z.of_nat i) (Z.of_nat (length steps) - 1));
      try reflexivity; lia.
  - decide_orders; simpl; repeat split; lia.
Qed.

Lemma stepper_marks_progress_witness :
  count isCheck (Stepper 2 formSteps) = 2 /\ count glows (Stepper 2 formSteps) = 1.
Proof.
  destruct (stepper_marks_progress 2 formSteps) as (_ & _ & Hg & Hc & _).
  - simpl. lia.
  - auto.
Defined.

(** In every session the stepper of the page glows on exactly one step and
    shows as many check marks as steps were passed. *)
Theorem stepper_follows_the_session (events : list event) :
  count glows (Stepper (currentStep (ui (run events))) formSteps) = 1 /\
  count isCheck (Stepper (currentStep (ui (run events))) formSteps) =
    currentStep (ui (run events)) /\
  count goldConnector (Stepper (currentStep (ui (run events))) formSteps) =
    currentStep (ui (run events)).
Proof.
  destruct (invariant_run events) as (Hrange & _). unfold stepInRange in Hrange.
  change lastStep with 3 in Hrange.
  generalize dependent (currentStep (ui (run events))). intros step Hrange.
  unfold Stepper.
  destruct (items_counts step (Z.of_nat (length formSteps)) 0 formSteps)
    as (-> & -> & _ & _ & ->).
  change (Z.of_nat (length formSteps)) with 4.
  decide_orders; simpl; repeat split; lia.
Qed.

(** ** The result card *)

Import ResultCard.

(** The four style selectors choose the same colour family: green for the
    string "Low", gold for the string "Medium", red for every other value
    (so for "High", for a missing category, for another spelling). *)
Theorem risk_classes_agree (risk : value) :
  (isString risk "Low" = true /\
   getRiskColorClass risk = "bg-green-500" /\ getRiskTextClass risk = "text-green-500" /\
   getRiskBorderClass risk = "border-green-200" /\ getRiskBgClass risk = "bg-green-50") \/
  (isString risk "Medium" = true /\
   getRiskColorClass risk = "bg-muted-gold" /\ getRiskTextClass risk = "text-muted-gold" /\
   getRiskBorderClass risk = "border-muted-gold/30" /\ getRiskBgClass risk = "bg-amber-50") \/
  (isString risk "Low" = false /\ isString risk "Medium" = false /\
   getRiskColorClass risk = "bg-red-500" /\ getRiskTextClass risk = "text-red-500" /\
   getRiskBorderClass risk = "border-red-200" /\ getRiskBgClass risk = "bg-red-50").
Proof.
  unfold getRiskColorClass, getRiskTextClass, getRiskBorderClass, getRiskBgClass.
  destruct (isString risk "Low") eqn:Hlow; [left; auto 10|].
  destruct (isString risk "Medium") eqn:Hmed; [right; left; auto 10|].
  right. right. auto 10.
Qed.

(** In every session, the card on screen displays the last round of the
    trace: the credit score and the risk category are those of that round's
    prediction response; the default risk reads "Low" exactly when the
    response's [loan_defaulted] is the Number 0, and "High" otherwise, also
    when the response lacks the field; the assessment block is absent when
    that round's feedback call failed, and shows the returned text when the
    call returned a truthy one. *)
Theorem card_displays_the_last_prediction (events : list event) :
  render (ui (run events)) = ResultsView ->
  exists c t fd response done,
    shown (ui (run events)) = Some c /\
    trace (run events) =
      (t ++ [CallPredict (predictionData fd); PredictReturned response;
             CallFeedback (feedbackData fd response); done])%list /\
    creditScore c = get response "credit_score" /\
    riskCategory c = get response "risk_category" /\
    (defaultRisk c = "Low" <-> isNumberZero (get response "loan_defaulted") = true) /\
    (defaultRisk c = "High" <-> isNumberZero (get response "loan_defaulted") = false) /\
    (forall e, done = FeedbackFailed e -> aiAssessment c = Nothing) /\
    (forall r, done = FeedbackReturned r ->
               ToBoolean (get r "feedback") = true ->
               exists border bg icon, aiAssessment c = Block border bg icon (get r "feedback")).
Proof.
  intros Hview.
  destruct (results_view_last_round events Hview)
    as (t & fd & response & done & Ht & Hres & Hfb).
  apply render_results in Hview as [Hshow _].
  eexists _, t, fd, response, done. unfold shown. rewrite Hshow, Hres.
  split; [reflexivity|]. split; [exact Ht|]. cbn.
  split; [reflexivity|]. split; [reflexivity|].
  split; [|split; [|split]].
  - destruct (isNumberZero _); split; congruence.
  - destruct (isNumberZero _); split; congruence.
  - intros e ->. destruct Hfb as [(r & Hr & _)|(e' & _ & ->)]; [discriminate|reflexivity].
  - intros r -> Htruthy. destruct Hfb as [(r' & Hr & ->)|(e' & He & _)]; [|discriminate].
    injection Hr as <-. rewrite Htruthy. eauto.
Qed.

Lemma card_displays_witness :
  exists c, shown (ui (run toResults)) = Some c /\ aiAssessment c = Nothing /\
            defaultRisk c = "Low".
Proof.
  destruct (card_displays_the_last_prediction toResults)
    as (c & t & fd & response & done & Hc & Ht & _ & _ & _ & _ & Hfail & _).
  - vm_compute. reflexivity.
  - exists c. split; [exact Hc|]. split.
    + apply (Hfail unreachable).
      assert (Hlast : trace (run toResults) =
                      ([CallPredict (predictionData applicant); PredictReturned predicted;
                        CallFeedback (feedbackData applicant predicted)] ++
                       [FeedbackFailed unreachable])%list) by (vm_compute; reflexivity).
      rewrite Hlast in Ht.
      change [CallPredict (predictionData fd); PredictReturned response;
              CallFeedback (feedbackData fd response); done]
        with ([CallPredict (predictionData fd); PredictReturned response;
               CallFeedback (feedbackData fd response)] ++ [done])%list in Ht.
      rewrite app_assoc in Ht. apply app_inj_tail in Ht as [_ <-]. reflexivity.
    + assert (Hsome : shown (ui (run toResults)) =
                      Some (ResultCard (scoringOf predicted) (VStr "Ada Obi") VNull))
        by (vm_compute; reflexivity).
      rewrite Hsome in Hc. injection Hc as <-. reflexivity.
Defined.

(** ** Validation, normalisation and the two requests *)

(** Validation checks that a numeric field is filled, not that it is a
    number: a text that is not blank and that [parseInt] or [parseFloat]
    cannot read is reported on no step, and is sent as the Number 0. *)
Theorem unreadable_number_passes_and_becomes_zero
    (formData : gmap string value) f kind s step v :
  In (f, kind) numericFields ->
  get formData f = VStr s ->
  allWhiteSpace s = false ->
  isNaN (parse kind (VStr s)) = true ->
  validateStep step formData = Normal v ->
  errors v !! f = None /\ predictionData formData !! f = Some (VNum zero).
Proof.
  intros Hin Hf Hblank Hnan Hv. split.
  - destruct (returns_rules _ _ _ Hv) as [rules Hrules].
    rewrite (validateStep_errors _ _ _ _ f Hrules Hv), Hf. simpl.
    rewrite trim_empty, Hblank. now rewrite andb_false_r.
  - rewrite (predictionData_numeric _ _ _ Hin), Hf.
    destruct (numberOr0 (parse kind (VStr s))) as (y & -> & _ & Hy).
    now rewrite (Hy Hnan).
Qed.

Lemma unreadable_number_witness :
  exists v, validateStep 0 (<["age" := VStr "abc"]> applicant) = Normal v /\
            isValid v = true /\
            errors v !! "age" = None /\
            predictionData (<["age" := VStr "abc"]> applicant) !! "age" = Some (VNum zero).
Proof.
  eexists. split; [reflexivity|]. split; [reflexivity|].
  eapply (unreadable_number_passes_and_becomes_zero _ "age" Integer "abc" 0);
    try reflexivity. simpl. auto 20.
Defined.

(** The feedback request repeats eleven fields of the prediction request
    with the very same values, takes the name from [full_name] (the empty
    string when that is falsy), and takes the score, the category and the
    probability from the prediction's response. *)
Theorem feedback_request_repeats_prediction_request
    (formData response : gmap string value) :
  Forall (fun k => feedbackData formData response !! k = predictionData formData !! k /\
                   is_Some (predictionData formData !! k))
         repeatedFields /\
  feedbackData formData response !! "name" =
    Some (if ToBoolean (get formData "full_name") then get formData "full_name"
          else VStr "") /\
  feedbackData formData response !! "credit_score" = Some (get response "credit_score") /\
  feedbackData formData response !! "risk_category" = Some (get response "risk_category") /\
  feedbackData formData response !! "default_probability" =
    Some (get response "default_probability").
Proof.
  unfold feedbackData, predictionData. rewrite !lookup_list_to_map_assoc.
  split; [|repeat split].
  unfold repeatedFields.
  repeat constructor; rewrite ?lookup_list_to_map_assoc; try reflexivity; eexists; reflexivity.
Qed.

(** Only a step component's write and a new assessment change the record:
    navigation, submission and the answers of the services leave it as it
    is, so the coerced values of the payload are never written back. *)
Theorem only_edits_and_reset_write_the_record (e : event) (s : session) :
  (forall r, e <> SetFormData r) ->
  e <> ClickNewAssessment ->
  formData (ui (dispatch e s)) = formData (ui s).
Proof.
  intros Hset Hnew. destruct e as [| | | |r|i o]; simpl.
  - destruct (nextShown (ui s)); [|reflexivity]. apply handleNext_cells.
  - destruct (previousEnabled (ui s)); [|reflexivity]. apply handlePrevious_cells.
  - destruct (submitEnabled (ui s)); [|reflexivity]. unfold handleSubmit.
    destruct (validateStep _ _) as [v|err]; [|reflexivity].
    destruct (isValid v); reflexivity.
  - congruence.
  - now destruct (Hset r).
  - destruct (inflight s !! i) as [[fd data|data]|]; [| |reflexivity];
      destruct o; reflexivity.
Qed.

Lemma only_edits_witness :
  formData (ui (dispatch (Settles 0 (Resolved predicted)) (run toSubmit))) = applicant.
Proof.
  rewrite only_edits_and_reset_write_the_record; [| discriminate | discriminate].
  vm_compute. reflexivity.
Defined.

(** For every record that validates on the four steps, and whatever the
    services answer after a returned prediction, filling the form, three
    clicks on Next, one on Submit and the two answers lead to the result
    card with that prediction's scores; the trace is one complete round
    built from that record, and the record is unchanged. *)
Theorem valid_record_reaches_the_result_card
    (fd response : gmap string value) (o : outcome) v0 v1 v2 v3 :
  validateStep 0 fd = Normal v0 -> isValid v0 = true ->
  validateStep 1 fd = Normal v1 -> isValid v1 = true ->
  validateStep 2 fd = Normal v2 -> isValid v2 = true ->
  validateStep 3 fd = Normal v3 -> isValid v3 = true ->
  render (ui (run [SetFormData fd; ClickNext; ClickNext; ClickNext; ClickSubmit;
                   Settles 0 (Resolved response); Settles 0 o])) = ResultsView /\
  results (ui (run [SetFormData fd; ClickNext; ClickNext; ClickNext; ClickSubmit;
                    Settles 0 (Resolved response); Settles 0 o])) =
    Some (scoringOf response) /\
  formData (ui (run [SetFormData fd; ClickNext; ClickNext; ClickNext; ClickSubmit;
                     Settles 0 (Resolved response); Settles 0 o])) = fd /\
  inflight (run [SetFormData fd; ClickNext; ClickNext; ClickNext; ClickSubmit;
                 Settles 0 (Resolved response); Settles 0 o]) = [] /\
  trace (run [SetFormData fd; ClickNext; ClickNext; ClickNext; ClickSubmit;
              Settles 0 (Resolved response); Settles 0 o]) =
    [CallPredict (predictionData fd); PredictReturned response;
     CallFeedback (feedbackData fd response);
     match o with
     | Resolved r => FeedbackReturned r
     | Rejected e => FeedbackFailed e
     end].
Proof.
  intros H0 V0 H1 V1 H2 V2 H3 V3.
  assert (Hstate : forall step,
            {| currentStep := step; showResults := false; formData := fd;
               results := None; feedback := VNull; isSubmitting := false;
               submitError := None; stepErrors := ∅ |} =
            setCurrentStep step (setFormData fd initialState)) by reflexivity.
  assert (Hnext : forall step step' v,
            step' = step + 1 ->
            0 <= step < 3 ->
            validateStep step fd = Normal v -> isValid v = true ->
            dispatch ClickNext
              {| ui := setCurrentStep step (setFormData fd initialState);
                 inflight := []; trace := [] |} =
            {| ui := setCurrentStep step' (setFormData fd initialState);
               inflight := []; trace := [] |}).
  { intros step step' v -> Hstep Hv Hvalid. unfold dispatch, nextShown, render. cbn.
    change lastStep with 3.
    destruct (Z.eqb_spec step 3); [lia|]. cbn.
    unfold handleNext. cbn. rewrite Hv, Hvalid. cbn. change lastStep with 3.
    destruct (Z.ltb_spec step 3); [reflexivity | lia]. }
  unfold run. cbn [foldl].
  change (dispatch (SetFormData fd) initialSession)
    with {| ui := setCurrentStep 0 (setFormData fd initialState);
            inflight := []; trace := [] |}.
  rewrite (Hnext 0 1 v0) by (auto; lia).
  rewrite (Hnext 1 2 v1) by (auto; lia).
  rewrite (Hnext 2 3 v2) by (auto; lia).
  assert (Hsubmit : forall step v,
            step = 3 ->
            validateStep step fd = Normal v -> isValid v = true ->
            dispatch ClickSubmit
              {| ui := setCurrentStep step (setFormData fd initialState);
                 inflight := []; trace := [] |} =
            {| ui := setStepErrors ∅ (setSubmitError None (setIsSubmitting true
                       (setCurrentStep step (setFormData fd initialState))));
               inflight := [AwaitPredict fd (predictionData fd)];
               trace := [CallPredict (predictionData fd)] |}).
  { intros step v Hstep Hv Hvalid. unfold dispatch, submitEnabled, render. cbn.
    change lastStep with 3.
    destruct (Z.eqb_spec step 3); [|lia]. cbn.
    unfold handleSubmit. cbn. rewrite Hv, Hvalid. reflexivity. }
  rewrite (Hsubmit 3 v3) by auto.
  destruct o as [r|e]; repeat split.
Qed.

Lemma valid_record_witness :
  render (ui (run [SetFormData applicant; ClickNext; ClickNext; ClickNext; ClickSubmit;
                   Settles 0 (Resolved predicted); Settles 0 (Resolved ∅)])) = ResultsView.
Proof.
  eapply (valid_record_reaches_the_result_card applicant predicted (Resolved ∅));
    vm_compute; reflexivity.
Defined.
